(** * Gateway lifecycle supervisor: fingerprint, locator, version check, ensure/restart

    Shallow embedding of [src/gateway/version.ts] and of the gateway process
    module ([isGatewayCurrentVersion], [findExistingMoltbotProcess],
    [restartMoltbotGateway], [ensureMoltbotGateway]).

    - JavaScript strings are sequences of UTF-16 code units ([list Z]).
    - 32-bit integer operators are written out with their wrap-around.
    - Asynchronous sandbox calls are sequenced (every call is awaited), so the
      code is a program in a state-and-exception monad over an arbitrary sandbox;
      every primitive call is recorded in a chronological trace.
    - [console.log] / [console.error] have no influence on control flow and
      are left out. *)

From Stdlib Require Import ZArith List String Ascii Bool Lia.
Import ListNotations.
Local Open Scope string_scope.
Local Open Scope list_scope.
Local Open Scope Z_scope.

(* ------------------------------------------------------------------ *)
(** ** JavaScript strings *)

Definition jsstring := list Z.

(** A literal of the source, as code units (the literals used are ASCII). *)
Definition lit (s : string) : jsstring :=
  map (fun a => Z.of_N (N_of_ascii a)) (list_ascii_of_string s).
Arguments lit s%_string : simpl never.

(** [a === b] on strings. *)
Fixpoint jseqb (a b : jsstring) : bool :=
  match a, b with
  | [], [] => true
  | c :: a', d :: b' => (c =? d) && jseqb a' b'
  | _, _ => false
  end.

(** [s.startsWith(p)], used by [includes]. *)
Fixpoint startsWith (s p : jsstring) {struct p} : bool :=
  match p, s with
  | [], _ => true
  | c :: p', d :: s' => (c =? d) && startsWith s' p'
  | _ :: _, [] => false
  end.

(** [s.includes(sub)]: [sub] occurs at some index of [s]. *)
Fixpoint includes (s sub : jsstring) : bool :=
  startsWith s sub ||
  match s with
  | [] => false
  | _ :: s' => includes s' sub
  end.

(** WhiteSpace and LineTerminator code points of ECMAScript, the ones
    [String.prototype.trim] strips. *)
Definition isWhiteSpace (c : Z) : bool :=
  (c =? 9) || (c =? 10) || (c =? 11) || (c =? 12) || (c =? 13) || (c =? 32) ||
  (c =? 160) || (c =? 5760) || ((8192 <=? c) && (c <=? 8202)) ||
  (c =? 8232) || (c =? 8233) || (c =? 8239) || (c =? 8287) ||
  (c =? 12288) || (c =? 65279).

Fixpoint trimStart (s : jsstring) : jsstring :=
  match s with
  | [] => []
  | c :: s' => if isWhiteSpace c then trimStart s' else s
  end.

Definition trimEnd (s : jsstring) : jsstring := rev (trimStart (rev s)).

(** [s.trim()] *)
Definition trim (s : jsstring) : jsstring := trimEnd (trimStart s).

(** [x || ''] for [x : string | undefined]: the empty string is falsy as well,
    and yields the empty string either way. *)
Definition orEmpty (x : option jsstring) : jsstring :=
  match x with
  | Some s => s
  | None => []
  end.

(** [x || d] for a non-empty default. *)
Definition orDefault (x : option jsstring) (d : jsstring) : jsstring :=
  match x with
  | Some [] => d
  | Some s => s
  | None => d
  end.

(* ------------------------------------------------------------------ *)
(** ** 32-bit integer operators and number rendering *)

Definition two32 : Z := 4294967296.

(** ToInt32 *)
Definition toInt32 (z : Z) : Z :=
  let m := z mod two32 in
  if 2147483648 <=? m then m - two32 else m.

(** ToUint32, i.e. [z >>> 0] *)
Definition toUint32 (z : Z) : Z := z mod two32.

(** [a << n]: both operands converted, the count masked to five bits, the
    result a signed 32-bit integer. *)
Definition js_shl (a n : Z) : Z :=
  toInt32 (Z.shiftl (toInt32 a) (Z.land n 31)).

(** Lowercase hexadecimal digit: '0'..'9' are 48..57, 'a'..'f' are 97..102. *)
Definition hexDigit (d : Z) : Z := if d <? 10 then 48 + d else 87 + d.

Fixpoint toHexFuel (fuel : nat) (n : Z) (acc : jsstring) : jsstring :=
  match fuel with
  | O => acc
  | S f =>
      let acc' := hexDigit (n mod 16) :: acc in
      if n / 16 =? 0 then acc' else toHexFuel f (n / 16) acc'
  end.

(** [n.toString(16)] for a non-negative integer [n]: no leading zeros. *)
Definition toString16 (n : Z) : jsstring :=
  toHexFuel (S (Z.to_nat (Z.log2 n))) n [].

(** [s.padStart(targetLength, fill)] for a one-character [fill]. *)
Definition padStart (s : jsstring) (targetLength : Z) (fill : Z) : jsstring :=
  let len := Z.of_nat (List.length s) in
  if targetLength <=? len then s
  else repeat fill (Z.to_nat (targetLength - len)) ++ s.

(* ------------------------------------------------------------------ *)
(** ** JSON.stringify on an object of string properties *)

Definition hex4 (c : Z) : jsstring :=
  [hexDigit ((c / 4096) mod 16); hexDigit ((c / 256) mod 16);
   hexDigit ((c / 16) mod 16); hexDigit (c mod 16)].

(** UnicodeEscape: backslash, 'u', four lowercase hex digits. *)
Definition unicodeEscape (c : Z) : jsstring := 92 :: 117 :: hex4 c.

Definition isLeadingSurrogate (c : Z) : bool := (55296 <=? c) && (c <=? 56319).
Definition isTrailingSurrogate (c : Z) : bool := (56320 <=? c) && (c <=? 57343).

(** The body of QuoteJSONString, by code point: the seven short escapes,
    [\uXXXX] for other control characters and for lone surrogates, a
    well-formed surrogate pair and everything else verbatim. *)
Fixpoint escapeJSON (s : jsstring) : jsstring :=
  match s with
  | [] => []
  | c :: rest =>
      if c =? 8 then lit "\b" ++ escapeJSON rest
      else if c =? 9 then lit "\t" ++ escapeJSON rest
      else if c =? 10 then lit "\n" ++ escapeJSON rest
      else if c =? 12 then lit "\f" ++ escapeJSON rest
      else if c =? 13 then lit "\r" ++ escapeJSON rest
      else if c =? 34 then [92; 34] ++ escapeJSON rest
      else if c =? 92 then [92; 92] ++ escapeJSON rest
      else if c <? 32 then unicodeEscape c ++ escapeJSON rest
      else if isLeadingSurrogate c then
        match rest with
        | d :: rest' =>
            if isTrailingSurrogate d then c :: d :: escapeJSON rest'
            else unicodeEscape c ++ escapeJSON rest
        | [] => unicodeEscape c
        end
      else if isTrailingSurrogate c then unicodeEscape c ++ escapeJSON rest
      else c :: escapeJSON rest
  end.

Definition quoteJSON (s : jsstring) : jsstring := [34] ++ escapeJSON s ++ [34].

Fixpoint joinWith (sep : jsstring) (l : list jsstring) : jsstring :=
  match l with
  | [] => []
  | [x] => x
  | x :: l' => x ++ sep ++ joinWith sep l'
  end.

(** [JSON.stringify(o)] for an object whose properties, in insertion order,
    are [kvs] and whose values are all strings: no property is skipped and no
    white space is inserted. *)
Definition JSON_stringify (kvs : list (jsstring * jsstring)) : jsstring :=
  lit "{" ++
  joinWith (lit ",") (map (fun kv => quoteJSON (fst kv) ++ lit ":" ++ quoteJSON (snd kv)) kvs) ++
  lit "}".

(* ------------------------------------------------------------------ *)
(** ** version.ts *)

(** Modelled from the spec: the [MoltbotEnv] type declaration ([../types]) is
    not among the sources. The configuration collaborator is "a mapping from
    recognized environment variable names to string values ... all optional";
    the fields are the ones the sources read, [None] standing for an absent
    binding, and [OTHER_BINDINGS] stands for every binding the gateway
    module never reads. *)
Record MoltbotEnv := {
  MOLTBOT_GATEWAY_TOKEN : option jsstring;
  AI_GATEWAY_API_KEY : option jsstring;
  AI_GATEWAY_BASE_URL : option jsstring;
  ANTHROPIC_API_KEY : option jsstring;
  ANTHROPIC_BASE_URL : option jsstring;
  OPENAI_API_KEY : option jsstring;
  TELEGRAM_BOT_TOKEN : option jsstring;
  TELEGRAM_DM_POLICY : option jsstring;
  DISCORD_BOT_TOKEN : option jsstring;
  DISCORD_DM_POLICY : option jsstring;
  SLACK_BOT_TOKEN : option jsstring;
  SLACK_APP_TOKEN : option jsstring;
  DEV_MODE : option jsstring;
  CLAWDBOT_BIND_MODE : option jsstring;
  OTHER_BINDINGS : list (jsstring * jsstring)
}.

(** The object literal [relevantConfig], properties in insertion order. *)
Definition relevantConfig (env : MoltbotEnv) : list (jsstring * jsstring) :=
  [ (lit "gatewayToken", orEmpty (MOLTBOT_GATEWAY_TOKEN env));
    (lit "aiGatewayApiKey", orEmpty (AI_GATEWAY_API_KEY env));
    (lit "aiGatewayBaseUrl", orEmpty (AI_GATEWAY_BASE_URL env));
    (lit "anthropicApiKey", orEmpty (ANTHROPIC_API_KEY env));
    (lit "anthropicBaseUrl", orEmpty (ANTHROPIC_BASE_URL env));
    (lit "openaiApiKey", orEmpty (OPENAI_API_KEY env));
    (lit "telegramToken", orEmpty (TELEGRAM_BOT_TOKEN env));
    (lit "telegramPolicy", orEmpty (TELEGRAM_DM_POLICY env));
    (lit "discordToken", orEmpty (DISCORD_BOT_TOKEN env));
    (lit "discordPolicy", orEmpty (DISCORD_DM_POLICY env));
    (lit "slackBotToken", orEmpty (SLACK_BOT_TOKEN env));
    (lit "slackAppToken", orEmpty (SLACK_APP_TOKEN env));
    (lit "devMode", orEmpty (DEV_MODE env));
    (lit "bindMode", orEmpty (CLAWDBOT_BIND_MODE env)) ].

(** One iteration of the loop of [djb2Hash]:
    [hash = ((hash << 5) + hash) + str.charCodeAt(i); hash = hash >>> 0].
    The additions are on Numbers; every intermediate value is an integer far
    below 2^53, so they are exact. *)
Definition djb2Step (hash c : Z) : Z :=
  toUint32 ((js_shl hash 5 + hash) + c).

Definition djb2Hash (str : jsstring) : jsstring :=
  let hash := fold_left djb2Step str 5381 in
  padStart (toString16 hash) 8 48.

Definition computeConfigHash (env : MoltbotEnv) : jsstring :=
  let configString := JSON_stringify (relevantConfig env) in
  djb2Hash configString.

(** *** The fingerprint as the specification words it *)

(** Seed 5381, multiply by 33 and add the character, folded to unsigned
    32 bits. *)
Definition djb2_spec (str : jsstring) : Z :=
  fold_left (fun h c => (h * 33 + c) mod 2 ^ 32) str 5381.

(** Zero-padded lowercase hexadecimal, exactly eight digits, most significant
    first. *)
Definition hex8_spec (h : Z) : jsstring :=
  map (fun i => hexDigit ((h / 16 ^ i) mod 16)) [7; 6; 5; 4; 3; 2; 1; 0].

Definition isLowerHexChar (c : Z) : bool :=
  ((48 <=? c) && (c <=? 57)) || ((97 <=? c) && (c <=? 102)).

(* ------------------------------------------------------------------ *)
(** ** The sandbox interface and the monad of the gateway module *)

(** A thrown value: an [Error] object with its message, or anything else. *)
Inductive exn :=
| ErrorObj (message : jsstring)
| Thrown (v : jsstring).

Inductive result (A : Type) :=
| Ok (a : A)
| Throw (e : exn).
Arguments Ok {A} a.
Arguments Throw {A} e.

Definition isOk {A} (r : result A) : bool :=
  match r with Ok _ => true | Throw _ => false end.

Definition okValue {A} (r : result A) : option A :=
  match r with Ok a => Some a | Throw _ => None end.

(** A process handle of the sandbox: the fields the module reads. *)
Record Process := {
  id : jsstring;
  command : jsstring;
  status : jsstring
}.

Record Logs := {
  stdout : option jsstring;
  stderr : option jsstring
}.

Definition EnvVars := list (jsstring * jsstring).

(** One call of a sandbox primitive (or of a collaborator), with its outcome. *)
Inductive Event :=
| EvMount (env : MoltbotEnv) (ok : bool)
| EvList (ok : bool)
| EvStart (cmd : jsstring) (vars : option EnvVars) (started : option Process)
| EvKill (p : Process) (ok : bool)
| EvSleep (ms : Z)
| EvWaitForPort (p : Process) (port timeout : Z) (ok : bool)
| EvGetLogs (p : Process) (ok : bool).

(** The sandbox and the storage collaborator, as the module consumes them:
    each call maps the state of the outside world to a new state and either a
    value or a thrown error. Nothing is assumed about their behaviour.
    [sb_mountR2Storage] stands for [mountR2Storage] of [./r2], which is not
    among the sources; [sb_sleep] is the passing of time in
    [new Promise(resolve => setTimeout(resolve, ms))]. *)
Record Sandbox (W : Type) := {
  sb_listProcesses : W -> W * result (list Process);
  sb_startProcess : jsstring -> option EnvVars -> W -> W * result Process;
  sb_kill : Process -> W -> W * result unit;
  sb_waitForPort : Process -> Z -> Z -> W -> W * result unit;
  sb_getLogs : Process -> W -> W * result Logs;
  sb_mountR2Storage : MoltbotEnv -> W -> W * result unit;
  sb_sleep : Z -> W -> W
}.
Arguments sb_listProcesses {W}.
Arguments sb_startProcess {W}.
Arguments sb_kill {W}.
Arguments sb_waitForPort {W}.
Arguments sb_getLogs {W}.
Arguments sb_mountR2Storage {W}.
Arguments sb_sleep {W}.

(** The constants of [../config] and the environment builder of [./env],
    none of them among the sources. *)
Record Config := {
  MOLTBOT_PORT : Z;
  STARTUP_TIMEOUT_MS : Z;
  buildEnvVars : MoltbotEnv -> EnvVars
}.

(** The result object of [isGatewayCurrentVersion]; [reason] is an optional
    property. *)
Record VersionCheckResult := {
  current : bool;
  expectedHash : jsstring;
  runningHash : option jsstring;
  reason : option jsstring
}.

Definition isEmpty (s : jsstring) : bool :=
  match s with [] => true | _ => false end.

(** The command of the fingerprint read:
    cat /tmp/gateway-config-hash 2>/dev/null || echo followed by two double
    quotes. *)
Definition hashReadCommand : jsstring :=
  lit "cat /tmp/gateway-config-hash 2>/dev/null || echo " ++ [34; 34].

Definition gatewayCommand : jsstring := lit "/usr/local/bin/start-moltbot.sh".

(** [Object.keys(envVars).length > 0 ? envVars : undefined] *)
Definition envOption (envVars : EnvVars) : option EnvVars :=
  match envVars with
  | [] => None
  | _ => Some envVars
  end.

(** [error instanceof Error ? error.message : 'unknown'] *)
Definition errorMessage (error : exn) : jsstring :=
  match error with
  | ErrorObj m => m
  | Thrown _ => lit "unknown"
  end.

(** The test of [findExistingMoltbotProcess] on one process. *)
Definition isGatewayProcess (proc : Process) : bool :=
  includes (command proc) (lit "start-moltbot.sh") ||
  includes (command proc) (lit "clawdbot gateway").

Definition isCliCommand (proc : Process) : bool :=
  includes (command proc) (lit "clawdbot devices") ||
  includes (command proc) (lit "clawdbot --version").

Definition isLive (proc : Process) : bool :=
  jseqb (status proc) (lit "starting") || jseqb (status proc) (lit "running").

(** The [for ... of] loop of [findExistingMoltbotProcess], with its early
    return. *)
Fixpoint findLoop (processes : list Process) : option Process :=
  match processes with
  | [] => None
  | proc :: rest =>
      if isGatewayProcess proc && negb (isCliCommand proc) then
        if isLive proc then Some proc else findLoop rest
      else findLoop rest
  end.

Section Gateway.

Context {W : Type}.
Variable sb : Sandbox W.
Variable cfg : Config.

(** State of the outside world in, state, trace of calls and outcome out. *)
Definition M (A : Type) : Type := W -> W * list Event * result A.

Definition ret {A} (a : A) : M A := fun w => (w, [], Ok a).

Definition throw {A} (e : exn) : M A := fun w => (w, [], Throw e).

Definition bind {A B} (m : M A) (k : A -> M B) : M B :=
  fun w =>
    match m w with
    | (w1, t1, Ok a) =>
        match k a w1 with
        | (w2, t2, r) => (w2, t1 ++ t2, r)
        end
    | (w1, t1, Throw e) => (w1, t1, Throw e)
    end.

(** [try { m } catch (e) { h e }] *)
Definition tryCatch {A} (m : M A) (h : exn -> M A) : M A :=
  fun w =>
    match m w with
    | (w1, t1, Ok a) => (w1, t1, Ok a)
    | (w1, t1, Throw e) =>
        match h e w1 with
        | (w2, t2, r) => (w2, t1 ++ t2, r)
        end
    end.

Notation "x <- m ;; k" := (bind m (fun x => k))
  (at level 61, m at next level, right associativity).
Notation "m ;; k" := (bind m (fun _ => k))
  (at level 61, right associativity).

(** *** The primitives, each recording its call *)

Definition listProcesses : M (list Process) :=
  fun w =>
    match sb_listProcesses sb w with
    | (w', r) => (w', [EvList (isOk r)], r)
    end.

Definition startProcess (cmd : jsstring) (vars : option EnvVars) : M Process :=
  fun w =>
    match sb_startProcess sb cmd vars w with
    | (w', r) => (w', [EvStart cmd vars (okValue r)], r)
    end.

Definition kill (p : Process) : M unit :=
  fun w =>
    match sb_kill sb p w with
    | (w', r) => (w', [EvKill p (isOk r)], r)
    end.

(** [p.waitForPort(port, { mode: 'tcp', timeout })] *)
Definition waitForPort (p : Process) (port timeout : Z) : M unit :=
  fun w =>
    match sb_waitForPort sb p port timeout w with
    | (w', r) => (w', [EvWaitForPort p port timeout (isOk r)], r)
    end.

Definition getLogs (p : Process) : M Logs :=
  fun w =>
    match sb_getLogs sb p w with
    | (w', r) => (w', [EvGetLogs p (isOk r)], r)
    end.

Definition mountR2Storage (env : MoltbotEnv) : M unit :=
  fun w =>
    match sb_mountR2Storage sb env w with
    | (w', r) => (w', [EvMount env (isOk r)], r)
    end.

Definition sleep (ms : Z) : M unit :=
  fun w => (sb_sleep sb ms w, [EvSleep ms], Ok tt).

(** *** The gateway process module *)

Definition isGatewayCurrentVersion (env : MoltbotEnv) : M VersionCheckResult :=
  let expectedHash := computeConfigHash env in
  tryCatch
    (proc <- startProcess hashReadCommand None ;;
     sleep 500 ;;
     logs <- getLogs proc ;;
     let runningHash := trim (orEmpty (stdout logs)) in
     if isEmpty runningHash then
       ret {| current := false;
              expectedHash := expectedHash;
              runningHash := None;
              reason := Some (lit "No config hash found in container (pre-version gateway)") |}
     else if negb (jseqb runningHash expectedHash) then
       ret {| current := false;
              expectedHash := expectedHash;
              runningHash := Some runningHash;
              reason := Some (lit "Hash mismatch: running=" ++ runningHash ++
                              lit ", expected=" ++ expectedHash) |}
     else
       ret {| current := true;
              expectedHash := expectedHash;
              runningHash := Some runningHash;
              reason := None |})
    (fun error =>
       ret {| current := false;
              expectedHash := expectedHash;
              runningHash := None;
              reason := Some (lit "Failed to read config hash: " ++ errorMessage error) |}).

Definition findExistingMoltbotProcess : M (option Process) :=
  tryCatch
    (processes <- listProcesses ;;
     ret (findLoop processes))
    (fun e => ret None).

Definition restartMoltbotGateway (env : MoltbotEnv) : M Process :=
  existingProcess <- findExistingMoltbotProcess ;;
  match existingProcess with
  | Some existing =>
      tryCatch
        (kill existing ;;
         sleep 2000)
        (fun killError => ret tt)
  | None => ret tt
  end ;;
  mountR2Storage env ;;
  let envVars := buildEnvVars cfg env in
  let command := gatewayCommand in
  process <- startProcess command (envOption envVars) ;;
  waitForPort process (MOLTBOT_PORT cfg) (STARTUP_TIMEOUT_MS cfg) ;;
  logs <- getLogs process ;;
  ret process.

(** The part of [ensureMoltbotGateway] from "Start a new Moltbot gateway" on. *)
Definition startNewGateway (env : MoltbotEnv) : M Process :=
  let envVars := buildEnvVars cfg env in
  let command := gatewayCommand in
  process <- tryCatch
               (startProcess command (envOption envVars))
               (fun startErr => throw startErr) ;;
  tryCatch
    (waitForPort process (MOLTBOT_PORT cfg) (STARTUP_TIMEOUT_MS cfg) ;;
     logs <- getLogs process ;;
     ret tt)
    (fun e =>
       tryCatch
         (logs <- getLogs process ;;
          throw (ErrorObj (lit "Moltbot gateway failed to start. Stderr: " ++
                           orDefault (stderr logs) (lit "(empty)"))))
         (fun logErr => throw e)) ;;
  ret process.

(** [ensureMoltbotGateway]: an early [return existingProcess] on the reuse
    path, every other path falls through to the fresh start. *)
Definition ensureMoltbotGateway (env : MoltbotEnv) : M Process :=
  mountR2Storage env ;;
  existingProcess <- findExistingMoltbotProcess ;;
  match existingProcess with
  | Some existing =>
      versionCheck <- isGatewayCurrentVersion env ;;
      if negb (current versionCheck) then
        tryCatch
          (kill existing ;;
           sleep 2000)
          (fun killError => ret tt) ;;
        startNewGateway env
      else
        reached <- tryCatch
                     (waitForPort existing (MOLTBOT_PORT cfg) (STARTUP_TIMEOUT_MS cfg) ;;
                      ret true)
                     (fun e =>
                        tryCatch (kill existing) (fun killError => ret tt) ;;
                        ret false) ;;
        if reached : bool then ret existing
        else startNewGateway env
  | None => startNewGateway env
  end.

End Gateway.

(* ------------------------------------------------------------------ *)
(** ** Specification-side definitions: renderings, traces and their orderings *)

(** Fixed-width rendering, least significant digit first into [acc]. *)
Fixpoint fixHex (k : nat) (n : Z) (acc : jsstring) : jsstring :=
  match k with
  | O => acc
  | S k' => fixHex k' (n / 16) (hexDigit (n mod 16) :: acc)
  end.

(** A string with no white space at either end. *)
Definition noOuterSpace (h : jsstring) : Prop :=
  match h with
  | [] => False
  | c :: _ => isWhiteSpace c = false
  end /\
  match rev h with
  | [] => False
  | c :: _ => isWhiteSpace c = false
  end.

(** The read of the persisted fingerprint, as the sandbox sees it: the three
    interactions at the head of the [try] block of [isGatewayCurrentVersion]
    (start of the read command, the 500 ms settling delay, the logs of the
    read). Used to say what was read, or that the read failed. *)
Definition fingerprintRead {W : Type} (sb : Sandbox W) : M Logs :=
  bind (startProcess sb hashReadCommand None) (fun proc =>
  bind (sleep sb 500) (fun _ =>
  getLogs sb proc)).

Definition preVersionReason : jsstring :=
  lit "No config hash found in container (pre-version gateway)".

Definition is_mount (e : Event) : bool :=
  match e with EvMount _ _ => true | _ => false end.

(** A storage mount that returned. *)
Definition is_mount_ok (e : Event) : bool :=
  match e with EvMount _ ok => ok | _ => false end.

Definition is_start (e : Event) : bool :=
  match e with EvStart _ _ _ => true | _ => false end.

(** A start of the gateway itself, as opposed to the fingerprint read. *)
Definition is_gateway_start (e : Event) : bool :=
  match e with EvStart cmd _ _ => jseqb cmd gatewayCommand | _ => false end.

Definition is_hash_read (e : Event) : bool :=
  match e with EvStart cmd _ _ => jseqb cmd hashReadCommand | _ => false end.

Definition is_kill (e : Event) : bool :=
  match e with EvKill _ _ => true | _ => false end.

Definition is_list (e : Event) : bool :=
  match e with EvList _ => true | _ => false end.

(** Every [Q] event of the trace has a [P] event somewhere before it. *)
Definition precededBy (P Q : Event -> bool) (t : list Event) : Prop :=
  forall l1 e l2, t = l1 ++ e :: l2 -> Q e = true -> existsb P l1 = true.

(** No [Q] event of the trace comes after a [P] event. *)
Definition noneAfter (P Q : Event -> bool) (t : list Event) : Prop :=
  forall l1 e l2, t = l1 ++ e :: l2 -> P e = true -> existsb Q l2 = false.

Fixpoint precededByb (P Q : Event -> bool) (seen : bool) (t : list Event) : bool :=
  match t with
  | [] => true
  | e :: t' => (if Q e then seen else true) && precededByb P Q (seen || P e) t'
  end.

Fixpoint noneAfterb (P Q : Event -> bool) (t : list Event) : bool :=
  match t with
  | [] => true
  | e :: t' => (if P e then negb (existsb Q t') else true) && noneAfterb P Q t'
  end.

(** What a run of [ensure] or [restart] owes its caller: a completed storage
    mount before any process start, no kill once the fresh gateway start is issued,
    and, when a handle [p] is returned, a successful wait for the gateway port
    on [p] with the startup timeout, after which nothing is started or killed;
    a gateway start of the run, if any, is the one that produced [p]. *)
Definition orderedRun (cfg : Config) (env : MoltbotEnv)
    (t : list Event) (r : result Process) : Prop :=
  precededBy is_mount_ok is_start t /\
  noneAfter is_gateway_start is_kill t /\
  forall p, r = Ok p ->
    exists l1 l2,
      t = l1 ++ EvWaitForPort p (MOLTBOT_PORT cfg) (STARTUP_TIMEOUT_MS cfg) true :: l2 /\
      existsb is_start l2 = false /\
      existsb is_kill l2 = false /\
      forall e, In e l1 -> is_gateway_start e = true ->
        e = EvStart gatewayCommand (envOption (buildEnvVars cfg env)) (Some p).

Definition gatewayStarts (t : list Event) : nat :=
  List.length (filter is_gateway_start t).

(** The process the locator returns for a listing. *)
Definition locatedIn (listing : result (list Process)) : option Process :=
  match listing with
  | Ok ps => findLoop ps
  | Throw _ => None
  end.

(** Kills and the fresh start, given the located process: every kill of the
    run is a kill of the located process, and when a process is located a
    kill of it has been issued before any start of the gateway command. *)
Definition killsLocatedFirst (located : option Process) (t : list Event) : Prop :=
  (forall p ok, In (EvKill p ok) t -> located = Some p) /\
  (forall p, located = Some p ->
     forall l1 e l2, t = l1 ++ e :: l2 -> is_gateway_start e = true ->
       exists ok, In (EvKill p ok) l1).

(** The second part of [killsLocatedFirst], along the trace: [killed] says
    that a kill of [p] has been seen. *)
Fixpoint startsAfterKill (p : Process) (killed : Prop) (t : list Event) : Prop :=
  match t with
  | [] => True
  | e :: t' =>
      (is_gateway_start e = true -> killed) /\
      startsAfterKill p (killed \/ exists ok, e = EvKill p ok) t'
  end.

(* ------------------------------------------------------------------ *)
(** ** A simulated sandbox *)

(** A small deterministic sandbox to run the module on: a process table, the
    content of [/tmp/gateway-config-hash] and a counter for fresh ids. *)
Record SimWorld := {
  sim_procs : list Process;
  sim_hashFile : jsstring;
  sim_next : Z
}.

(** How the simulated container behaves: whether the gateway port ever
    opens, whether the logs of the gateway can be read, what the startup
    script persists as its fingerprint, and what the gateway prints on its
    error stream. *)
Record SimKnobs := {
  portOpens : bool;
  logsReadable : bool;
  persistedHash : jsstring;
  gatewayStderr : jsstring
}.

Definition simStart (k : SimKnobs) (cmd : jsstring) (w : SimWorld)
    : SimWorld * result Process :=
  let p := {| id := lit "proc_" ++ toString16 (sim_next w);
              command := cmd;
              status := lit "running" |} in
  ({| sim_procs := sim_procs w ++ [p];
      sim_hashFile := if jseqb cmd gatewayCommand then persistedHash k
                      else sim_hashFile w;
      sim_next := sim_next w + 1 |}, Ok p).

Definition simKill (p : Process) (w : SimWorld) : SimWorld * result unit :=
  ({| sim_procs := filter (fun q => negb (jseqb (id q) (id p))) (sim_procs w);
      sim_hashFile := sim_hashFile w;
      sim_next := sim_next w |}, Ok tt).

Definition simGetLogs (k : SimKnobs) (p : Process) (w : SimWorld)
    : SimWorld * result Logs :=
  if jseqb (command p) hashReadCommand then
    (w, Ok {| stdout := Some (sim_hashFile w ++ [10]); stderr := Some [] |})
  else if logsReadable k then
    (w, Ok {| stdout := Some (lit "gateway booting"); stderr := Some (gatewayStderr k) |})
  else (w, Throw (ErrorObj (lit "logs unavailable"))).

Definition simSandbox (k : SimKnobs) : Sandbox SimWorld := {|
  sb_listProcesses := fun w => (w, Ok (sim_procs w));
  sb_startProcess := fun cmd _ w => simStart k cmd w;
  sb_kill := simKill;
  sb_waitForPort := fun _ _ _ w =>
    (w, if portOpens k then Ok tt
        else Throw (ErrorObj (lit "timed out waiting for port")));
  sb_getLogs := simGetLogs k;
  sb_mountR2Storage := fun _ w => (w, Ok tt);
  sb_sleep := fun _ w => w
|}.

Definition simCfg : Config := {|
  MOLTBOT_PORT := 18789;
  STARTUP_TIMEOUT_MS := 180000;
  buildEnvVars := fun _ => []
|}.

(** No binding set. *)
Definition envNone : MoltbotEnv := {|
  MOLTBOT_GATEWAY_TOKEN := None; AI_GATEWAY_API_KEY := None;
  AI_GATEWAY_BASE_URL := None; ANTHROPIC_API_KEY := None;
  ANTHROPIC_BASE_URL := None; OPENAI_API_KEY := None;
  TELEGRAM_BOT_TOKEN := None; TELEGRAM_DM_POLICY := None;
  DISCORD_BOT_TOKEN := None; DISCORD_DM_POLICY := None;
  SLACK_BOT_TOKEN := None; SLACK_APP_TOKEN := None;
  DEV_MODE := None; CLAWDBOT_BIND_MODE := None;
  OTHER_BINDINGS := []
|}.

(** The same snapshot from other bindings: an empty [DEV_MODE] and a binding
    the fingerprint does not track. *)
Definition envEmptyDevMode : MoltbotEnv := {|
  MOLTBOT_GATEWAY_TOKEN := None; AI_GATEWAY_API_KEY := None;
  AI_GATEWAY_BASE_URL := None; ANTHROPIC_API_KEY := None;
  ANTHROPIC_BASE_URL := None; OPENAI_API_KEY := None;
  TELEGRAM_BOT_TOKEN := None; TELEGRAM_DM_POLICY := None;
  DISCORD_BOT_TOKEN := None; DISCORD_DM_POLICY := None;
  SLACK_BOT_TOKEN := None; SLACK_APP_TOKEN := None;
  DEV_MODE := Some []; CLAWDBOT_BIND_MODE := None;
  OTHER_BINDINGS := [(lit "DEBUG_ROUTES", lit "true")]
|}.

(** The fingerprint of [envNone], evaluated. *)
Definition hashNone : jsstring := Eval vm_compute in computeConfigHash envNone.

(** A healthy container whose startup script persists the fingerprint of
    [envNone]. *)
Definition healthy : SimKnobs := {|
  portOpens := true;
  logsReadable := true;
  persistedHash := hashNone;
  gatewayStderr := []
|}.

(** A container whose gateway never opens its port and prints a diagnostic. *)
Definition stuck : SimKnobs := {|
  portOpens := false;
  logsReadable := true;
  persistedHash := hashNone;
  gatewayStderr := lit "bind: address already in use"
|}.

(** A healthy gateway in a container whose gateway logs cannot be read. *)
Definition logless : SimKnobs := {|
  portOpens := true;
  logsReadable := false;
  persistedHash := hashNone;
  gatewayStderr := []
|}.

(** A healthy container whose startup script persists no fingerprint. *)
Definition forgetful : SimKnobs := {|
  portOpens := true;
  logsReadable := true;
  persistedHash := [];
  gatewayStderr := []
|}.

Definition emptyWorld : SimWorld :=
  {| sim_procs := []; sim_hashFile := []; sim_next := 0 |}.

Definition gw0 : Process :=
  {| id := lit "proc_0"; command := gatewayCommand; status := lit "running" |}.

(** The world a first successful start leaves behind. *)
Definition runningWorld : SimWorld :=
  {| sim_procs := [gw0];
     sim_hashFile := hashNone;
     sim_next := 1 |}.

Definition probe1 : Process :=
  {| id := lit "proc_1"; command := hashReadCommand; status := lit "running" |}.

(** The world after a reuse of [gw0]: the fingerprint read has left its own
    process in the table. *)
Definition reusedWorld : SimWorld :=
  {| sim_procs := [gw0; probe1]; sim_hashFile := hashNone; sim_next := 2 |}.

(** The world a first start leaves behind in the [forgetful] container. *)
Definition unmarkedWorld : SimWorld :=
  {| sim_procs := [gw0]; sim_hashFile := []; sim_next := 1 |}.

Definition gw2 : Process :=
  {| id := lit "proc_2"; command := gatewayCommand; status := lit "running" |}.

Definition gw1 : Process :=
  {| id := lit "proc_1"; command := gatewayCommand; status := lit "running" |}.

(** The world after a restart of [gw0]. *)
Definition restartedWorld : SimWorld :=
  {| sim_procs := [gw1]; sim_hashFile := hashNone; sim_next := 2 |}.

Definition hashReadTrace : list Event :=
  [EvStart hashReadCommand None (Some probe1); EvSleep 500; EvGetLogs probe1 true].

Definition hashReadLogs : Logs :=
  {| stdout := Some (hashNone ++ [10]); stderr := Some [] |}.

Definition currentResult : VersionCheckResult :=
  {| current := true;
     expectedHash := hashNone;
     runningHash := Some hashNone;
     reason := None |}.

Definition freshTrace : list Event :=
  [EvMount envNone true; EvList true;
   EvStart gatewayCommand None (Some gw0);
   EvWaitForPort gw0 18789 180000 true;
   EvGetLogs gw0 true].

Definition restartTrace : list Event :=
  [EvList true; EvKill gw0 true; EvSleep 2000;
   EvMount envNone true;
   EvStart gatewayCommand None (Some gw1);
   EvWaitForPort gw1 18789 180000 true;
   EvGetLogs gw1 true].

(* ------------------------------------------------------------------ *)
(** ** Decoding side of the fingerprint: code units, hexadecimal, quoted strings *)

(** A UTF-16 code unit. *)
Definition isCodeUnit (c : Z) : bool := (0 <=? c) && (c <? 65536).

(** A JavaScript string proper: every element is a code unit. *)
Definition wellFormed (s : jsstring) : bool := forallb isCodeUnit s.

(** Value of a lowercase hexadecimal digit. *)
Definition hexVal (c : Z) : Z :=
  if (48 <=? c) && (c <=? 57) then c - 48 else c - 87.

(** The number a hexadecimal numeral denotes, most significant digit first. *)
Definition parseHex (s : jsstring) : Z :=
  fold_left (fun acc c => acc * 16 + hexVal c) s 0.

(** The character a short escape stands for. *)
Definition unescapeShort (x : Z) : Z :=
  if x =? 98 then 8
  else if x =? 116 then 9
  else if x =? 110 then 10
  else if x =? 102 then 12
  else if x =? 114 then 13
  else x.

(** Reads a JSON string body up to its closing quote: the decoded string and
    what follows the quote. *)
Fixpoint readQuoted (s : jsstring) : option (jsstring * jsstring) :=
  match s with
  | [] => None
  | c :: rest =>
      if c =? 34 then Some ([], rest)
      else if c =? 92 then
        match rest with
        | [] => None
        | x :: rest1 =>
            if x =? 117 then
              match rest1 with
              | a :: b :: c' :: d :: rest2 =>
                  match readQuoted rest2 with
                  | Some (v, r) =>
                      Some (4096 * hexVal a + 256 * hexVal b + 16 * hexVal c' + hexVal d :: v, r)
                  | None => None
                  end
              | _ => None
              end
            else
              match readQuoted rest1 with
              | Some (v, r) => Some (unescapeShort x :: v, r)
              | None => None
              end
        end
      else
        match readQuoted rest with
        | Some (v, r) => Some (c :: v, r)
        | None => None
        end
  end.

(** One property of the serialized object: quoted key, colon, quoted value. *)
Definition jsonEntry (kv : jsstring * jsstring) : jsstring :=
  quoteJSON (fst kv) ++ lit ":" ++ quoteJSON (snd kv).

(* ------------------------------------------------------------------ *)
(** ** More on traces *)

(** The test of the locator on one process: gateway command, not a CLI
    command, live. *)
Definition liveMatch (q : Process) : bool :=
  isGatewayProcess q && negb (isCliCommand q) && isLive q.

Definition is_wait (e : Event) : bool :=
  match e with EvWaitForPort _ _ _ _ => true | _ => false end.

Definition is_getLogs (e : Event) : bool :=
  match e with EvGetLogs _ _ => true | _ => false end.

Definition is_sleep (e : Event) : bool :=
  match e with EvSleep _ => true | _ => false end.

(** The call threw. *)
Definition ev_failed (e : Event) : bool :=
  match e with
  | EvMount _ ok => negb ok
  | EvList ok => negb ok
  | EvStart _ _ started => match started with Some _ => false | None => true end
  | EvKill _ ok => negb ok
  | EvSleep _ => false
  | EvWaitForPort _ _ _ ok => negb ok
  | EvGetLogs _ ok => negb ok
  end.

Definition countEvents (P : Event -> bool) (t : list Event) : nat :=
  List.length (filter P t).

(* ------------------------------------------------------------------ *)
(** ** The public routes that talk to the sandbox *)

Module PublicRoutes.

Local Notation "x <- m ;; k" := (bind m (fun x => k))
  (at level 61, m at next level, right associativity).
Local Notation "m ;; k" := (bind m (fun _ => k))
  (at level 61, right associativity).

(** [err instanceof Error ? err.message : 'Unknown error'] *)
Definition routeErrorMessage (err : exn) : jsstring :=
  match err with
  | ErrorObj m => m
  | Thrown _ => lit "Unknown error"
  end.

(** The object handed to [c.json] by [GET /api/status]; [processId] and
    [error] are optional properties. *)
Record StatusBody := {
  ok : bool;
  status : jsstring;
  processId : option jsstring;
  error : option jsstring
}.

(** The handler of [GET /api/status]. *)
Definition apiStatus {W : Type} (sb : Sandbox W) : M StatusBody :=
  tryCatch
    (process <- findExistingMoltbotProcess sb ;;
     match process with
     | None =>
         ret {| ok := false; status := lit "not_running";
                processId := None; error := None |}
     | Some process =>
         tryCatch
           (waitForPort sb process 18789 5000 ;;
            ret {| ok := true; status := lit "running";
                   processId := Some (id process); error := None |})
           (fun _ =>
              ret {| ok := false; status := lit "not_responding";
                     processId := Some (id process); error := None |})
     end)
    (fun err =>
       ret {| ok := false; status := lit "error";
              processId := None; error := Some (routeErrorMessage err) |}).

(** [s.slice(start)]: a negative [start] counts from the end. *)
Definition slice (s : jsstring) (start : Z) : jsstring :=
  let len := Z.of_nat (List.length s) in
  let from := if start <? 0 then Z.max (len + start) 0 else Z.min start len in
  skipn (Z.to_nat from) s.

(** [x?.slice(start) || ''] *)
Definition sliceOrEmpty (x : option jsstring) (start : Z) : jsstring :=
  match x with
  | Some s => slice s start
  | None => []
  end.

(** The test of [processes.find] in [GET /debug-public]. *)
Definition debugMatch (p : Process) : bool :=
  includes (command p) (lit "clawdbot gateway") ||
  includes (command p) (lit "start-moltbot").

Definition configReadCommand : jsstring := lit "cat /root/.clawdbot/clawdbot.json".

(** The object handed to [c.json] by [GET /debug-public]: the collected
    results (with [config] when the configuration parses and [configRaw]
    otherwise), or the error alone. *)
Inductive DebugBody (J : Type) :=
| DebugResults (processes : list Process)
               (gatewayLogs : option (jsstring * jsstring))
               (config : J + option jsstring)
| DebugError (error : jsstring).
Arguments DebugResults {J}.
Arguments DebugError {J}.

(** The handler of [GET /debug-public]. [JSON_parse] stands for [JSON.parse],
    which returns a value or throws. *)
Definition debugPublic {W J : Type} (sb : Sandbox W)
    (JSON_parse : jsstring -> result J) : M (DebugBody J) :=
  tryCatch
    (processes <- listProcesses sb ;;
     gatewayLogs <-
       match find debugMatch processes with
       | Some gatewayProc =>
           logs <- getLogs sb gatewayProc ;;
           ret (Some (sliceOrEmpty (stdout logs) (-3000),
                      sliceOrEmpty (stderr logs) (-1000)))
       | None => ret None
       end ;;
     configProc <- startProcess sb configReadCommand None ;;
     sleep sb 2000 ;;
     configLogs <- getLogs sb configProc ;;
     ret (DebugResults processes gatewayLogs
            match JSON_parse (orDefault (stdout configLogs) (lit "{}")) with
            | Ok v => inl v
            | Throw _ => inr (stdout configLogs)
            end))
    (fun err => ret (DebugError (routeErrorMessage err))).

(** [s.replace(pattern, replacement)] for a string pattern and a replacement
    without [$]: the first occurrence is replaced. *)
Fixpoint replaceFirst (s pattern replacement : jsstring) : jsstring :=
  if startsWith s pattern then replacement ++ skipn (List.length pattern) s
  else
    match s with
    | [] => []
    | c :: s' => c :: replaceFirst s' pattern replacement
    end.

(** [url.pathname.replace('/_admin/assets/', '/assets/')] of
    [GET /_admin/assets/*]. *)
Definition assetPath (pathname : jsstring) : jsstring :=
  replaceFirst pathname (lit "/_admin/assets/") (lit "/assets/").

End PublicRoutes.

(* ------------------------------------------------------------------ *)
(** ** More runs on the simulated sandbox *)

(** Every tracked value of the environment is a string of code units. *)
Definition wellFormedEnv (env : MoltbotEnv) : bool :=
  forallb (fun kv => wellFormed (snd kv)) (relevantConfig env).

(** A start of the configuration read of [GET /debug-public], with no
    options. *)
Definition is_config_read (e : Event) : bool :=
  match e with
  | EvStart cmd None _ => jseqb cmd PublicRoutes.configReadCommand
  | _ => false
  end.

(** A gateway token set, everything else absent. *)
Definition envToken : MoltbotEnv := {|
  MOLTBOT_GATEWAY_TOKEN := Some (lit "secret"); AI_GATEWAY_API_KEY := None;
  AI_GATEWAY_BASE_URL := None; ANTHROPIC_API_KEY := None;
  ANTHROPIC_BASE_URL := None; OPENAI_API_KEY := None;
  TELEGRAM_BOT_TOKEN := None; TELEGRAM_DM_POLICY := None;
  DISCORD_BOT_TOKEN := None; DISCORD_DM_POLICY := None;
  SLACK_BOT_TOKEN := None; SLACK_APP_TOKEN := None;
  DEV_MODE := None; CLAWDBOT_BIND_MODE := None;
  OTHER_BINDINGS := []
|}.

(** What the version check answers for [envToken] when the container holds
    the fingerprint of [envNone]. *)
Definition staleResult : VersionCheckResult :=
  {| current := false;
     expectedHash := computeConfigHash envToken;
     runningHash := Some hashNone;
     reason := Some (lit "Hash mismatch: running=" ++ hashNone ++
                     lit ", expected=" ++ computeConfigHash envToken) |}.

(** A gateway process that has exited. *)
Definition exitedGateway : Process :=
  {| id := lit "proc_0"; command := gatewayCommand; status := lit "exited" |}.

Definition configProc1 : Process :=
  {| id := lit "proc_1"; command := PublicRoutes.configReadCommand;
     status := lit "running" |}.

(** The world after [GET /debug-public] on [runningWorld]. *)
Definition debuggedWorld : SimWorld :=
  {| sim_procs := [gw0; configProc1]; sim_hashFile := hashNone; sim_next := 2 |}.

Definition debugTrace : list Event :=
  [EvList true; EvGetLogs gw0 true;
   EvStart PublicRoutes.configReadCommand None (Some configProc1);
   EvSleep 2000; EvGetLogs configProc1 true].

(** A [JSON.parse] that rejects its input. *)
Definition rejectingParse (s : jsstring) : result unit :=
  Throw (ErrorObj (lit "Unexpected token")).

(* ------------------------------------------------------------------ *)
(** ** Properties of the fingerprint *)

Lemma toInt32_mod (z : Z) : toInt32 z mod two32 = z mod two32.
Proof.
  unfold toInt32.
  destruct (2147483648 <=? z mod two32).
  - replace (z mod two32 - two32) with (z mod two32 + (-1) * two32) by ring.
    rewrite Z.mod_add by (unfold two32; lia).
    apply Z.mod_mod. unfold two32; lia.
  - apply Z.mod_mod. unfold two32; lia.
Qed.

Lemma mod_add_congr (a b x m : Z) :
  a mod m = b mod m -> (a + x) mod m = (b + x) mod m.
Proof.
  intros H.
  rewrite <- (Zplus_mod_idemp_l a), <- (Zplus_mod_idemp_l b), H.
  reflexivity.
Qed.

Lemma js_shl_5_mod (h : Z) : js_shl h 5 mod two32 = (h * 32) mod two32.
Proof.
  unfold js_shl.
  change (Z.land 5 31) with 5.
  rewrite toInt32_mod, Z.shiftl_mul_pow2 by lia.
  change (2 ^ 5) with 32.
  rewrite <- Zmult_mod_idemp_l, toInt32_mod, Zmult_mod_idemp_l.
  reflexivity.
Qed.

Lemma djb2Step_spec (h c : Z) : djb2Step h c = (h * 33 + c) mod 2 ^ 32.
Proof.
  unfold djb2Step, toUint32.
  change (2 ^ 32) with two32.
  rewrite <- Z.add_assoc.
  rewrite (mod_add_congr (js_shl h 5) (h * 32) (h + c) two32) by apply js_shl_5_mod.
  f_equal. ring.
Qed.

Lemma djb2_fold_spec (s : jsstring) (h : Z) :
  fold_left djb2Step s h = fold_left (fun h c => (h * 33 + c) mod 2 ^ 32) s h.
Proof.
  revert h. induction s as [|c s IH]; intros h; simpl.
  - reflexivity.
  - rewrite djb2Step_spec. apply IH.
Qed.

Lemma djb2_spec_fold_range (s : jsstring) (h : Z) :
  0 <= h < 2 ^ 32 ->
  0 <= fold_left (fun h c => (h * 33 + c) mod 2 ^ 32) s h < 2 ^ 32.
Proof.
  revert h. induction s as [|c s IH]; intros h Hh; simpl.
  - exact Hh.
  - apply IH. apply Z.mod_pos_bound. lia.
Qed.

Lemma djb2_spec_range (s : jsstring) : 0 <= djb2_spec s < 2 ^ 32.
Proof. apply djb2_spec_fold_range. lia. Qed.

Lemma fixHex_length (k : nat) (n : Z) (acc : jsstring) :
  List.length (fixHex k n acc) = (k + List.length acc)%nat.
Proof.
  revert n acc. induction k as [|k IH]; intros n acc; simpl.
  - reflexivity.
  - rewrite IH. simpl. lia.
Qed.

Lemma fixHex_zero (m : nat) (acc : jsstring) :
  fixHex m 0 acc = repeat 48 m ++ acc.
Proof.
  revert acc. induction m as [|m IH]; intros acc; simpl.
  - reflexivity.
  - change (0 / 16) with 0. change (hexDigit (0 mod 16)) with 48.
    rewrite IH.
    change (48 :: repeat 48 m ++ acc) with ((48 :: repeat 48 m) ++ acc).
    rewrite repeat_cons, <- app_assoc. reflexivity.
Qed.

Lemma fixHex_pad (j m : nat) (n : Z) (acc : jsstring) :
  0 <= n < 16 ^ Z.of_nat j ->
  fixHex (j + m) n acc = repeat 48 m ++ fixHex j n acc.
Proof.
  revert n acc. induction j as [|j IH]; intros n acc Hn.
  - simpl in Hn. assert (n = 0) by lia. subst n. simpl. apply fixHex_zero.
  - simpl. apply IH.
    rewrite Nat2Z.inj_succ, Z.pow_succ_r in Hn by lia.
    split.
    + apply Z.div_pos; lia.
    + apply Z.div_lt_upper_bound; lia.
Qed.

Lemma toHexFuel_fixHex (f : nat) (n : Z) (acc : jsstring) :
  0 <= n < 16 ^ Z.of_nat f -> (0 < f)%nat ->
  exists j : nat,
    (0 < j <= f)%nat /\ n < 16 ^ Z.of_nat j /\
    toHexFuel f n acc = fixHex j n acc.
Proof.
  revert n acc. induction f as [|f IH]; intros n acc Hn Hf.
  - lia.
  - simpl. destruct (n / 16 =? 0) eqn:Hq.
    + exists 1%nat. apply Z.eqb_eq in Hq.
      assert (n < 16).
      { destruct (Z_lt_ge_dec n 16) as [|Hge]; [assumption|].
        assert (1 <= n / 16) by (apply Z.div_le_lower_bound; lia). lia. }
      repeat split; try lia.
    + apply Z.eqb_neq in Hq.
      rewrite Nat2Z.inj_succ, Z.pow_succ_r in Hn by lia.
      assert (Hd : 0 <= n / 16 < 16 ^ Z.of_nat f).
      { split; [apply Z.div_pos; lia | apply Z.div_lt_upper_bound; lia]. }
      destruct f as [|f'].
      { simpl in Hd. lia. }
      destruct (IH (n / 16) (hexDigit (n mod 16) :: acc) Hd ltac:(lia))
        as (j & Hj & Hlt & Heq).
      exists (S j). repeat split; try lia.
      * rewrite Nat2Z.inj_succ, Z.pow_succ_r by lia.
        assert (n = 16 * (n / 16) + n mod 16) by (apply Z.div_mod; lia).
        assert (0 <= n mod 16 < 16) by (apply Z.mod_pos_bound; lia).
        lia.
      * rewrite Heq. reflexivity.
Qed.

Lemma fixHex_8_spec (h : Z) : fixHex 8 h [] = hex8_spec h.
Proof.
  unfold hex8_spec. cbn [fixHex map].
  rewrite !Z.div_div by lia.
  change (16 ^ 0) with 1. rewrite Z.div_1_r.
  reflexivity.
Qed.

Lemma log2_fuel_bound (n : Z) :
  0 <= n -> n < 16 ^ Z.of_nat (S (Z.to_nat (Z.log2 n))).
Proof.
  intros Hn.
  rewrite Nat2Z.inj_succ, Z2Nat.id by apply Z.log2_nonneg.
  destruct (Z.eq_dec n 0) as [->|Hnz].
  - simpl. lia.
  - assert (Hl : n < 2 ^ Z.succ (Z.log2 n)) by (apply Z.log2_spec; lia).
    assert (2 ^ Z.succ (Z.log2 n) <= 16 ^ Z.succ (Z.log2 n)).
    { apply Z.pow_le_mono_l. lia. }
    lia.
Qed.

(** On the range of the hash, [toString(16)] followed by [padStart(8, '0')]
    is the eight-digit rendering. *)
Lemma padStart_toString16 (h : Z) :
  0 <= h < 2 ^ 32 -> padStart (toString16 h) 8 48 = hex8_spec h.
Proof.
  intros Hh. unfold toString16.
  destruct (toHexFuel_fixHex (S (Z.to_nat (Z.log2 h))) h [])
    as (j & Hj & Hlt & Heq).
  { split; [lia | apply log2_fuel_bound; lia]. }
  { lia. }
  rewrite Heq. unfold padStart. rewrite fixHex_length. simpl List.length.
  rewrite Nat.add_0_r.
  destruct (8 <=? Z.of_nat j) eqn:Hc.
  - apply Z.leb_le in Hc.
    destruct (Nat.eq_dec j 8) as [->|Hne]; [apply fixHex_8_spec|].
    exfalso.
    (* a ninth digit would need h >= 16^8 *)
    assert (Hj9 : (9 <= j)%nat) by lia.
    clear Hc Hne.
    assert (Hlen : forall (f : nat) (n : Z) (acc : jsstring) (k : nat),
               0 <= n < 16 ^ Z.of_nat k -> (0 < k)%nat ->
               (List.length (toHexFuel f n acc) <= k + List.length acc)%nat).
    { clear. induction f as [|f IH]; intros n acc k Hn Hk; simpl.
      - lia.
      - destruct (n / 16 =? 0) eqn:Hq.
        + simpl. lia.
        + apply Z.eqb_neq in Hq.
          destruct k as [|k]; [lia|].
          rewrite Nat2Z.inj_succ, Z.pow_succ_r in Hn by lia.
          destruct k as [|k].
          { simpl in Hn. exfalso. apply Hq. apply Z.div_small. lia. }
          specialize (IH (n / 16) (hexDigit (n mod 16) :: acc) (S k)).
          simpl List.length in IH.
          assert (0 <= n / 16 < 16 ^ Z.of_nat (S k)).
          { split; [apply Z.div_pos; lia | apply Z.div_lt_upper_bound; lia]. }
          specialize (IH ltac:(assumption) ltac:(lia)). lia. }
    specialize (Hlen (S (Z.to_nat (Z.log2 h))) h [] 8%nat).
    rewrite Heq, fixHex_length in Hlen. simpl in Hlen.
    change (16 ^ 8) with (2 ^ 32) in Hlen.
    specialize (Hlen ltac:(lia) ltac:(lia)). lia.
  - apply Z.leb_gt in Hc.
    replace (Z.to_nat (8 - Z.of_nat j)) with (8 - j)%nat by lia.
    rewrite <- fixHex_pad by lia.
    replace (j + (8 - j))%nat with 8%nat by lia.
    apply fixHex_8_spec.
Qed.

Lemma hexDigit_lower (d : Z) :
  0 <= d < 16 -> isLowerHexChar (hexDigit d) = true.
Proof.
  intros Hd. unfold isLowerHexChar, hexDigit.
  destruct (d <? 10) eqn:E; [apply Z.ltb_lt in E | apply Z.ltb_ge in E].
  - apply orb_true_iff. left. apply andb_true_iff. split; apply Z.leb_le; lia.
  - apply orb_true_iff. right. apply andb_true_iff. split; apply Z.leb_le; lia.
Qed.

Lemma hex8_spec_lower (h : Z) : forallb isLowerHexChar (hex8_spec h) = true.
Proof.
  unfold hex8_spec. cbn [map forallb].
  rewrite !hexDigit_lower by (apply Z.mod_pos_bound; lia).
  reflexivity.
Qed.

Lemma computeConfigHash_spec (env : MoltbotEnv) :
  computeConfigHash env = hex8_spec (djb2_spec (JSON_stringify (relevantConfig env))).
Proof.
  unfold computeConfigHash, djb2Hash.
  rewrite djb2_fold_spec.
  apply padStart_toString16. apply djb2_spec_range.
Qed.

(** C4. [computeConfigHash] is a total function of the configuration snapshot
    [relevantConfig env]: environments with equal snapshots have equal
    fingerprints, and the fingerprint is the djb2 hash (seed 5381, multiply by
    33 plus character, folded to unsigned 32 bits) of the serialized tracked
    fields, rendered as exactly eight zero-padded lowercase hexadecimal
    digits. *)
Theorem computeConfigHash_djb2_hex8 (env1 env2 : MoltbotEnv) :
  relevantConfig env1 = relevantConfig env2 ->
  computeConfigHash env1 = computeConfigHash env2 /\
  computeConfigHash env1 =
    hex8_spec (djb2_spec (JSON_stringify (relevantConfig env1))) /\
  List.length (computeConfigHash env1) = 8%nat /\
  forallb isLowerHexChar (computeConfigHash env1) = true.
Proof.
  intros Hsnap. split; [|split; [|split]].
  - unfold computeConfigHash. rewrite Hsnap. reflexivity.
  - apply computeConfigHash_spec.
  - rewrite computeConfigHash_spec. reflexivity.
  - rewrite computeConfigHash_spec. apply hex8_spec_lower.
Qed.

(* ------------------------------------------------------------------ *)
(** ** Properties of the string primitives *)

(** Boolean comparisons on code units, as propositions. *)
Ltac zbool :=
  repeat match goal with
  | H : _ || _ = true |- _ => apply orb_true_iff in H; destruct H as [H|H]
  | H : _ && _ = true |- _ => apply andb_true_iff in H; destruct H as [? H]
  | H : (_ =? _) = true |- _ => apply Z.eqb_eq in H
  | H : (_ <=? _) = true |- _ => apply Z.leb_le in H
  | H : (_ <? _) = true |- _ => apply Z.ltb_lt in H
  end.

Lemma jseqb_eq (a b : jsstring) : jseqb a b = true <-> a = b.
Proof.
  revert b. induction a as [|c a IH]; intros [|d b]; simpl; split;
    try congruence; try reflexivity.
  - intros H. apply andb_true_iff in H. destruct H as [H1 H2].
    apply Z.eqb_eq in H1. apply IH in H2. congruence.
  - intros H. injection H as -> ->.
    rewrite Z.eqb_refl. simpl. apply IH. reflexivity.
Qed.

Lemma jseqb_refl (a : jsstring) : jseqb a a = true.
Proof. apply jseqb_eq. reflexivity. Qed.

Lemma jseqb_neq (a b : jsstring) : jseqb a b = false <-> a <> b.
Proof.
  split.
  - intros H E. apply jseqb_eq in E. congruence.
  - intros H. destruct (jseqb a b) eqn:E; [|reflexivity].
    apply jseqb_eq in E. contradiction.
Qed.

Lemma startsWith_app (p rest : jsstring) : startsWith (p ++ rest) p = true.
Proof.
  induction p as [|c p IH]; simpl.
  - reflexivity.
  - rewrite Z.eqb_refl. exact IH.
Qed.

Lemma startsWith_inv (s p : jsstring) :
  startsWith s p = true -> exists rest, s = p ++ rest.
Proof.
  revert s. induction p as [|c p IH]; intros s H.
  - exists s. reflexivity.
  - destruct s as [|d s]; simpl in H; [discriminate|].
    apply andb_true_iff in H. destruct H as [H1 H2].
    apply Z.eqb_eq in H1. destruct (IH s H2) as [rest ->].
    exists rest. subst. reflexivity.
Qed.

(** [includes] is the substring relation. *)
Lemma includes_iff (s sub : jsstring) :
  includes s sub = true <-> exists a b, s = a ++ sub ++ b.
Proof.
  split.
  - induction s as [|c s IH]; simpl; intros H.
    + rewrite orb_false_r in H. destruct (startsWith_inv _ _ H) as [rest E].
      exists [], rest. exact E.
    + apply orb_true_iff in H. destruct H as [H|H].
      * destruct (startsWith_inv _ _ H) as [rest E].
        exists [], rest. exact E.
      * destruct (IH H) as (a & b & ->). exists (c :: a), b. reflexivity.
  - intros (a & b & ->). induction a as [|c a IH].
    + simpl app at 1. destruct (sub ++ b) eqn:E; simpl.
      * destruct sub; [reflexivity | discriminate].
      * rewrite <- E, startsWith_app. reflexivity.
    + simpl. rewrite IH. apply orb_true_r.
Qed.

Lemma includes_mid (a sub b : jsstring) : includes (a ++ sub ++ b) sub = true.
Proof. apply includes_iff. exists a, b. reflexivity. Qed.

Lemma trimStart_spaces (ws s : jsstring) :
  forallb isWhiteSpace ws = true -> trimStart (ws ++ s) = trimStart s.
Proof.
  induction ws as [|c ws IH]; simpl; intros H.
  - reflexivity.
  - apply andb_true_iff in H. destruct H as [H1 H2].
    rewrite H1. apply IH. exact H2.
Qed.

Lemma trim_spaces (ws : jsstring) :
  forallb isWhiteSpace ws = true -> trim ws = [].
Proof.
  intros H. unfold trim.
  rewrite <- (app_nil_r ws), trimStart_spaces by exact H.
  reflexivity.
Qed.

Lemma trimStart_fixed (h s : jsstring) :
  match h with [] => False | c :: _ => isWhiteSpace c = false end ->
  trimStart (h ++ s) = h ++ s.
Proof.
  destruct h as [|c h]; simpl; intros H; [contradiction|].
  rewrite H. reflexivity.
Qed.

Lemma forallb_rev {A} (f : A -> bool) (l : list A) :
  forallb f l = true -> forallb f (rev l) = true.
Proof.
  intros H. apply forallb_forall. intros x Hx.
  apply in_rev in Hx. revert x Hx. apply forallb_forall. exact H.
Qed.

Lemma trim_surrounded (ws1 h ws2 : jsstring) :
  forallb isWhiteSpace ws1 = true ->
  forallb isWhiteSpace ws2 = true ->
  noOuterSpace h ->
  trim (ws1 ++ h ++ ws2) = h.
Proof.
  intros H1 H2 [Hl Hr]. unfold trim, trimEnd.
  rewrite trimStart_spaces by exact H1.
  rewrite trimStart_fixed by exact Hl.
  rewrite rev_app_distr.
  rewrite trimStart_spaces by (apply forallb_rev; exact H2).
  rewrite <- (app_nil_r (rev h)), trimStart_fixed by exact Hr.
  rewrite app_nil_r. apply rev_involutive.
Qed.

Lemma lowerHex_not_space (c : Z) :
  isLowerHexChar c = true -> isWhiteSpace c = false.
Proof.
  intros H. destruct (isWhiteSpace c) eqn:E; [|reflexivity].
  exfalso. unfold isLowerHexChar in H. unfold isWhiteSpace in E.
  zbool; lia.
Qed.

Lemma computeConfigHash_noOuterSpace (env : MoltbotEnv) :
  noOuterSpace (computeConfigHash env).
Proof.
  rewrite computeConfigHash_spec. unfold noOuterSpace, hex8_spec.
  cbn [map rev app].
  split; apply lowerHex_not_space, hexDigit_lower, Z.mod_pos_bound; lia.
Qed.

Lemma computeConfigHash_nonempty (env : MoltbotEnv) :
  isEmpty (computeConfigHash env) = false.
Proof. rewrite computeConfigHash_spec. reflexivity. Qed.

(* ------------------------------------------------------------------ *)
(** ** Properties of the process locator *)

Lemma findLoop_Some (ps : list Process) (p : Process) :
  findLoop ps = Some p ->
  In p ps /\ isGatewayProcess p = true /\ isCliCommand p = false /\
  isLive p = true.
Proof.
  induction ps as [|q ps IH]; simpl; intros H.
  - discriminate.
  - destruct (isGatewayProcess q) eqn:Eg; simpl in H.
    + destruct (isCliCommand q) eqn:Ec; simpl in H.
      * destruct (IH H) as (? & ? & ? & ?). auto.
      * destruct (isLive q) eqn:El.
        -- injection H as <-. auto.
        -- destruct (IH H) as (? & ? & ? & ?). auto.
    + destruct (IH H) as (? & ? & ? & ?). auto.
Qed.

Lemma findLoop_None (ps : list Process) :
  findLoop ps = None <->
  forall p, In p ps ->
    isGatewayProcess p && negb (isCliCommand p) && isLive p = false.
Proof.
  induction ps as [|q ps IH]; simpl.
  - split; [intros _ p [] | reflexivity].
  - destruct (isGatewayProcess q && negb (isCliCommand q)) eqn:E.
    + destruct (isLive q) eqn:El.
      * split; [discriminate|]. intros H.
        specialize (H q (or_introl eq_refl)). rewrite E, El in H. discriminate.
      * rewrite IH. split.
        -- intros H p [<-|Hin]; [rewrite E, El; reflexivity | apply H, Hin].
        -- intros H p Hin. apply H. right. exact Hin.
    + rewrite IH. split.
      * intros H p [<-|Hin]; [rewrite E; reflexivity | apply H, Hin].
      * intros H p Hin. apply H. right. exact Hin.
Qed.

Lemma isLive_status (p : Process) :
  isLive p = true <-> status p = lit "starting" \/ status p = lit "running".
Proof.
  unfold isLive. rewrite orb_true_iff, !jseqb_eq. reflexivity.
Qed.

(** C5. [findExistingMoltbotProcess] never throws. A process it returns is
    one of the listed ones, its command line names the gateway entry point
    ([start-moltbot.sh] or [clawdbot gateway]) and is not a CLI invocation
    ([clawdbot devices], [clawdbot --version]), and its status is [starting]
    or [running], hence neither [exited] nor [unknown]. The result is [null]
    exactly when the listing holds no such live match, and also when the
    listing itself fails. *)
Theorem findExistingMoltbotProcess_live_gateway {W : Type}
    (sb : Sandbox W) (w : W) :
  exists w' t r,
    findExistingMoltbotProcess sb w = (w', t, Ok r) /\
    (forall p, r = Some p ->
       isGatewayProcess p = true /\
       includes (command p) (lit "clawdbot devices") = false /\
       includes (command p) (lit "clawdbot --version") = false /\
       (status p = lit "starting" \/ status p = lit "running") /\
       status p <> lit "exited" /\ status p <> lit "unknown" /\
       exists w1 ps, sb_listProcesses sb w = (w1, Ok ps) /\ In p ps) /\
    match sb_listProcesses sb w with
    | (_, Ok ps) =>
        r = None <->
        (forall p, In p ps ->
           isGatewayProcess p && negb (isCliCommand p) && isLive p = false)
    | (_, Throw _) => r = None
    end.
Proof.
  unfold findExistingMoltbotProcess, tryCatch, bind, listProcesses, ret.
  destruct (sb_listProcesses sb w) as [w1 [ps|e]]; simpl.
  - exists w1, [EvList true], (findLoop ps).
    split; [reflexivity|]. split.
    + intros p Hp. apply findLoop_Some in Hp.
      destruct Hp as (Hin & Hg & Hc & Hl).
      unfold isCliCommand in Hc. apply orb_false_iff in Hc. destruct Hc as [Hc1 Hc2].
      apply isLive_status in Hl.
      repeat split; try assumption.
      * intros E. destruct Hl as [Hl|Hl]; rewrite E in Hl; discriminate.
      * intros E. destruct Hl as [Hl|Hl]; rewrite E in Hl; discriminate.
      * exists w1, ps. split; [reflexivity | assumption].
    + apply findLoop_None.
  - exists w1, [EvList false], None.
    split; [reflexivity|]. split; [discriminate | reflexivity].
Qed.

(* ------------------------------------------------------------------ *)
(** ** Properties of the version check *)

Ltac msimpl := cbn -[lit computeConfigHash trim includes jseqb].

Ltac run_monad :=
  unfold fingerprintRead, tryCatch, bind, ret, throw, startProcess, sleep,
    getLogs, kill, waitForPort, listProcesses, mountR2Storage.

(** C3. [isGatewayCurrentVersion] never throws, and its result is decided by
    the read: a failed read gives [current = false], no running hash and a
    failure reason; an empty (trimmed) output gives [current = false], no
    running hash and the pre-version reason; an output different from the
    expected fingerprint gives [current = false] and a reason containing both
    values; the expected fingerprint gives [current = true]. The reason is
    present exactly when [current] is false. *)
Theorem isGatewayCurrentVersion_outcomes {W : Type}
    (sb : Sandbox W) (env : MoltbotEnv) (w : W) :
  exists w' t vc,
    isGatewayCurrentVersion sb env w = (w', t, Ok vc) /\
    expectedHash vc = computeConfigHash env /\
    (reason vc <> None <-> current vc = false) /\
    match fingerprintRead sb w with
    | (_, _, Throw e) =>
        current vc = false /\ runningHash vc = None /\
        reason vc = Some (lit "Failed to read config hash: " ++ errorMessage e)
    | (_, _, Ok logs) =>
        let h := trim (orEmpty (stdout logs)) in
        (h = [] ->
           current vc = false /\ runningHash vc = None /\
           reason vc = Some preVersionReason /\
           includes preVersionReason (lit "pre-version gateway") = true) /\
        (h <> [] -> h <> computeConfigHash env ->
           current vc = false /\ runningHash vc = Some h /\
           exists r, reason vc = Some r /\
             includes r h = true /\
             includes r (computeConfigHash env) = true) /\
        (h = computeConfigHash env ->
           current vc = true /\ runningHash vc = Some h /\ reason vc = None)
    end.
Proof.
  unfold isGatewayCurrentVersion. run_monad.
  destruct (sb_startProcess sb hashReadCommand None w) as [w1 [proc|e]]; msimpl.
  2: { do 3 eexists. split; [reflexivity|]. msimpl.
       repeat split; try discriminate; reflexivity. }
  destruct (sb_getLogs sb proc (sb_sleep sb 500 w1)) as [w2 [logs|e]]; msimpl.
  2: { do 3 eexists. split; [reflexivity|]. msimpl.
       repeat split; try discriminate; reflexivity. }
  set (h := trim (orEmpty (stdout logs))).
  destruct (isEmpty h) eqn:Ee.
  - assert (Hh : h = []) by (destruct h; [reflexivity | discriminate]).
    do 3 eexists. split; [reflexivity|]. msimpl.
    split; [reflexivity|]. split; [split; [reflexivity | discriminate]|].
    split; [| split].
    + intros _. repeat split; reflexivity.
    + intros Hne. contradiction.
    + intros E. rewrite Hh in E.
      pose proof (computeConfigHash_nonempty env) as Hn.
      rewrite <- E in Hn. discriminate.
  - assert (Hh : h <> []) by (intros E; rewrite E in Ee; discriminate).
    destruct (jseqb h (computeConfigHash env)) eqn:Eq; msimpl.
    + apply jseqb_eq in Eq.
      do 3 eexists. split; [reflexivity|]. msimpl.
      split; [reflexivity|].
      split; [split; [intros H; contradiction H; reflexivity | discriminate]|].
      split; [| split].
      * intros E. contradiction.
      * intros _ Hne. contradiction.
      * intros _. repeat split; reflexivity.
    + apply jseqb_neq in Eq.
      do 3 eexists. split; [reflexivity|]. msimpl.
      split; [reflexivity|]. split; [split; [reflexivity | discriminate]|].
      split; [| split].
      * intros E. contradiction.
      * intros _ _. split; [reflexivity|]. split; [reflexivity|].
        eexists. split; [reflexivity|]. split.
        -- apply includes_mid.
        -- apply includes_iff.
           exists (lit "Hash mismatch: running=" ++ h ++ lit ", expected="), [].
           rewrite app_nil_r, <- !app_assoc. reflexivity.
      * intros E. contradiction.
Qed.

(** C10. The output of the fingerprint read is trimmed before any test: an
    output of white space only (a lone newline, the empty [echo]) is the
    no-fingerprint case, and the expected fingerprint surrounded by white
    space is the matching case. *)
Theorem isGatewayCurrentVersion_trims {W : Type}
    (sb : Sandbox W) (env : MoltbotEnv) (w : W)
    (w1 : W) (t1 : list Event) (logs : Logs) :
  fingerprintRead sb w = (w1, t1, Ok logs) ->
  (forallb isWhiteSpace (orEmpty (stdout logs)) = true ->
   isGatewayCurrentVersion sb env w =
     (w1, t1, Ok {| current := false;
                    expectedHash := computeConfigHash env;
                    runningHash := None;
                    reason := Some preVersionReason |})) /\
  (forall ws1 ws2,
     forallb isWhiteSpace ws1 = true -> forallb isWhiteSpace ws2 = true ->
     stdout logs = Some (ws1 ++ computeConfigHash env ++ ws2) ->
     isGatewayCurrentVersion sb env w =
       (w1, t1, Ok {| current := true;
                      expectedHash := computeConfigHash env;
                      runningHash := Some (computeConfigHash env);
                      reason := None |})).
Proof.
  unfold isGatewayCurrentVersion. run_monad.
  destruct (sb_startProcess sb hashReadCommand None w) as [w2 [proc|e]]; msimpl;
    [|discriminate].
  destruct (sb_getLogs sb proc (sb_sleep sb 500 w2)) as [w3 [logs'|e]]; msimpl;
    [|discriminate].
  intros H. injection H as <- <- <-. split.
  - intros Hws. rewrite (trim_spaces _ Hws). msimpl. reflexivity.
  - intros ws1 ws2 H1 H2 Hout. rewrite Hout. msimpl.
    rewrite (trim_surrounded ws1 _ ws2 H1 H2 (computeConfigHash_noOuterSpace env)).
    rewrite computeConfigHash_nonempty, jseqb_refl. msimpl. reflexivity.
Qed.

(* ------------------------------------------------------------------ *)
(** ** Traces of sandbox calls *)

Lemma precededByb_sound_gen (P Q : Event -> bool) (t pre : list Event) :
  precededByb P Q (existsb P pre) t = true ->
  forall l1 e l2, t = l1 ++ e :: l2 -> Q e = true ->
    existsb P (pre ++ l1) = true.
Proof.
  revert pre. induction t as [|x t IH]; intros pre H l1 e l2 E HQ.
  - destruct l1; discriminate.
  - simpl in H. apply andb_true_iff in H. destruct H as [H1 H2].
    destruct l1 as [|y l1]; simpl in E; injection E as <- ->.
    + rewrite HQ in H1. rewrite app_nil_r. exact H1.
    + replace (pre ++ x :: l1) with ((pre ++ [x]) ++ l1)
        by (rewrite <- app_assoc; reflexivity).
      apply (IH (pre ++ [x])) with (e := e) (l2 := l2); try reflexivity; try assumption.
      rewrite existsb_app. simpl. rewrite orb_false_r. exact H2.
Qed.

Lemma precededByb_sound (P Q : Event -> bool) (t : list Event) :
  precededByb P Q false t = true -> precededBy P Q t.
Proof.
  intros H l1 e l2 E HQ.
  apply (precededByb_sound_gen P Q t [] H l1 e l2 E HQ).
Qed.

Lemma noneAfterb_sound (P Q : Event -> bool) (t : list Event) :
  noneAfterb P Q t = true -> noneAfter P Q t.
Proof.
  induction t as [|x t IH]; intros H l1 e l2 E HP.
  - destruct l1; discriminate.
  - simpl in H. apply andb_true_iff in H. destruct H as [H1 H2].
    destruct l1 as [|y l1]; simpl in E; injection E as <- ->.
    + rewrite HP in H1. apply negb_true_iff in H1. exact H1.
    + apply (IH H2 l1 e l2 eq_refl HP).
Qed.

(** Case analysis on the outcome of the next sandbox call. *)
Ltac next_call :=
  match goal with
  | |- context [sb_mountR2Storage ?s ?e ?w] =>
      destruct (sb_mountR2Storage s e w) as [? [[]|?]] eqn:?
  | |- context [sb_listProcesses ?s ?w] =>
      destruct (sb_listProcesses s w) as [? [?|?]] eqn:?
  | |- context [sb_startProcess ?s ?c ?v ?w] =>
      destruct (sb_startProcess s c v w) as [? [?|?]] eqn:?
  | |- context [sb_kill ?s ?p ?w] =>
      destruct (sb_kill s p w) as [? [[]|?]] eqn:?
  | |- context [sb_waitForPort ?s ?p ?a ?b ?w] =>
      destruct (sb_waitForPort s p a b w) as [? [[]|?]] eqn:?
  | |- context [sb_getLogs ?s ?p ?w] =>
      destruct (sb_getLogs s p w) as [? [?|?]] eqn:?
  | |- context [findLoop ?ps] =>
      destruct (findLoop ps) as [?|] eqn:?
  | |- context [isEmpty (trim ?s)] =>
      destruct (isEmpty (trim s)) eqn:?
  | |- context [jseqb (trim ?s) ?h] =>
      destruct (jseqb (trim s) h) eqn:?
  end; msimpl.

Ltac all_calls := repeat next_call.

Ltac solve_ordered :=
  split; [apply precededByb_sound; reflexivity|];
  split; [apply noneAfterb_sound; reflexivity|];
  intros ? Hret; try discriminate Hret; injection Hret as <-;
  eexists; eexists;
  (split;
   [ first [ exact (eq_refl : _ = [] ++ _ :: _)
           | exact (eq_refl : _ = [_] ++ _ :: _)
           | exact (eq_refl : _ = [_; _] ++ _ :: _)
           | exact (eq_refl : _ = [_; _; _] ++ _ :: _)
           | exact (eq_refl : _ = [_; _; _; _] ++ _ :: _)
           | exact (eq_refl : _ = [_; _; _; _; _] ++ _ :: _)
           | exact (eq_refl : _ = [_; _; _; _; _; _] ++ _ :: _)
           | exact (eq_refl : _ = [_; _; _; _; _; _; _] ++ _ :: _)
           | exact (eq_refl : _ = [_; _; _; _; _; _; _; _] ++ _ :: _)
           | exact (eq_refl : _ = [_; _; _; _; _; _; _; _; _] ++ _ :: _)
           | exact (eq_refl : _ = [_; _; _; _; _; _; _; _; _; _] ++ _ :: _) ]
   | split; [reflexivity|]; split; [reflexivity|];
     let e := fresh "e" in let Hin := fresh "Hin" in let Hg := fresh "Hg" in
     intros e Hin Hg; cbn [In] in Hin;
     repeat (destruct Hin as [<-|Hin]; [first [discriminate Hg | reflexivity]|]);
     contradiction ]).

Lemma startsAfterKill_mono (p : Process) (t : list Event) :
  forall A B : Prop, (A -> B) -> startsAfterKill p A t -> startsAfterKill p B t.
Proof.
  induction t as [|x t IH]; intros A B HAB H; [exact I|].
  cbn [startsAfterKill] in *. destruct H as [Ha Hb]. split; [auto|].
  apply (IH (A \/ exists ok, x = EvKill p ok)); [tauto | exact Hb].
Qed.

Lemma startsAfterKill_sound (p : Process) (t pre : list Event) :
  startsAfterKill p (exists ok, In (EvKill p ok) pre) t ->
  forall l1 e l2, t = l1 ++ e :: l2 -> is_gateway_start e = true ->
    exists ok, In (EvKill p ok) (pre ++ l1).
Proof.
  revert pre. induction t as [|x t IH]; intros pre H l1 e l2 E Hg.
  - destruct l1; discriminate.
  - cbn [startsAfterKill] in H. destruct H as [H1 H2].
    destruct l1 as [|y l1]; cbn [app] in E; injection E as <- ->.
    + rewrite app_nil_r. apply H1, Hg.
    + replace (pre ++ x :: l1) with ((pre ++ [x]) ++ l1)
        by (rewrite <- app_assoc; reflexivity).
      apply (IH (pre ++ [x])) with (e := e) (l2 := l2); try reflexivity; try assumption.
      apply (startsAfterKill_mono p _
               ((exists ok, In (EvKill p ok) pre) \/ exists ok, x = EvKill p ok));
        [|exact H2].
      intros [[ok Hin]|[ok ->]]; exists ok; apply in_or_app;
        [left | right; left]; auto.
Qed.

Ltac solve_kills :=
  unfold killsLocatedFirst; split;
  [ let p := fresh "p" in let ok := fresh "ok" in let Hin := fresh "Hin" in
    intros p ok Hin; cbn [In] in Hin;
    repeat (destruct Hin as [Hin|Hin];
            [first [discriminate Hin | injection Hin as <- <-; reflexivity]|]);
    contradiction
  | let p := fresh "p" in let Hp := fresh "Hp" in
    intros p Hp; first
      [ discriminate Hp
      | injection Hp as <-;
        apply (startsAfterKill_sound _ _ []);
        cbn [startsAfterKill];
        repeat split;
        try (let H := fresh in intros H; first [discriminate H | eauto 6]) ] ].

(** C7. In every run of [ensureMoltbotGateway] and of [restartMoltbotGateway],
    whatever the sandbox does: the storage mount precedes any process start;
    when a process is located, a kill of it is issued before any start of the
    gateway command, every kill of the run is a kill of the located process
    and no kill follows the fresh start; and a returned handle has passed a
    successful wait on the gateway port, issued after the start that produced
    it. The located process is the one the locator returns for the listing
    of the run (in [ensure], the listing made after the mount). *)
Theorem ensure_restart_ordered {W : Type}
    (sb : Sandbox W) (cfg : Config) (env : MoltbotEnv) (w : W) :
  (let '(_, t, r) := ensureMoltbotGateway sb cfg env w in
   orderedRun cfg env t r /\
   killsLocatedFirst
     (locatedIn (snd (sb_listProcesses sb (fst (sb_mountR2Storage sb env w))))) t) /\
  (let '(_, t, r) := restartMoltbotGateway sb cfg env w in
   orderedRun cfg env t r /\
   killsLocatedFirst (locatedIn (snd (sb_listProcesses sb w))) t).
Proof.
  split.
  - unfold ensureMoltbotGateway, startNewGateway, findExistingMoltbotProcess,
      isGatewayCurrentVersion.
    run_monad. all_calls;
      (split; [unfold orderedRun; solve_ordered | solve_kills]).
  - unfold restartMoltbotGateway, findExistingMoltbotProcess.
    run_monad. all_calls;
      (split; [unfold orderedRun; solve_ordered | solve_kills]).
Qed.

(* ------------------------------------------------------------------ *)
(** ** The reuse path *)

Lemma findExisting_found_trace {W : Type} (sb : Sandbox W) (w w' : W)
    (t : list Event) (p : Process) :
  findExistingMoltbotProcess sb w = (w', t, Ok (Some p)) ->
  t = [EvList true].
Proof.
  unfold findExistingMoltbotProcess. run_monad.
  destruct (sb_listProcesses sb w) as [w1 [ps|e]]; msimpl; intros H.
  - injection H as _ <- _. reflexivity.
  - discriminate.
Qed.

Lemma isGatewayCurrentVersion_current_trace {W : Type} (sb : Sandbox W)
    (env : MoltbotEnv) (w w' : W) (t : list Event) (vc : VersionCheckResult) :
  isGatewayCurrentVersion sb env w = (w', t, Ok vc) ->
  current vc = true ->
  exists probe,
    t = [EvStart hashReadCommand None (Some probe); EvSleep 500; EvGetLogs probe true].
Proof.
  unfold isGatewayCurrentVersion. run_monad.
  destruct (sb_startProcess sb hashReadCommand None w) as [w1 [proc|e]]; msimpl.
  2: { intros H Hc. injection H as _ _ <-. discriminate. }
  destruct (sb_getLogs sb proc (sb_sleep sb 500 w1)) as [w2 [logs|e]]; msimpl.
  2: { intros H Hc. injection H as _ _ <-. discriminate. }
  destruct (isEmpty (trim (orEmpty (stdout logs)))); msimpl.
  { intros H Hc. injection H as _ _ <-. discriminate. }
  destruct (jseqb (trim (orEmpty (stdout logs))) (computeConfigHash env)); msimpl.
  - intros H _. injection H as _ <- _. exists proc. reflexivity.
  - intros H Hc. injection H as _ _ <-. discriminate.
Qed.

Lemma fingerprintRead_current {W : Type} (sb : Sandbox W)
    (env : MoltbotEnv) (w w' : W) (t : list Event) (logs : Logs) :
  fingerprintRead sb w = (w', t, Ok logs) ->
  trim (orEmpty (stdout logs)) = computeConfigHash env ->
  isGatewayCurrentVersion sb env w =
    (w', t, Ok {| current := true;
                  expectedHash := computeConfigHash env;
                  runningHash := Some (computeConfigHash env);
                  reason := None |}).
Proof.
  unfold isGatewayCurrentVersion. run_monad.
  destruct (sb_startProcess sb hashReadCommand None w) as [w1 [proc|e]]; msimpl;
    [|discriminate].
  destruct (sb_getLogs sb proc (sb_sleep sb 500 w1)) as [w2 [logs'|e]]; msimpl;
    [|discriminate].
  intros H E. injection H as <- <- <-. rewrite E.
  rewrite computeConfigHash_nonempty, jseqb_refl. reflexivity.
Qed.

(** The run of [ensureMoltbotGateway] on the reuse path, call by call. *)
Lemma ensure_reuse_run {W : Type} (sb : Sandbox W) (cfg : Config)
    (env : MoltbotEnv) (w w1 w2 w3 w4 : W) (tl tv : list Event)
    (located : Process) (vc : VersionCheckResult) :
  sb_mountR2Storage sb env w = (w1, Ok tt) ->
  findExistingMoltbotProcess sb w1 = (w2, tl, Ok (Some located)) ->
  isGatewayCurrentVersion sb env w2 = (w3, tv, Ok vc) ->
  current vc = true ->
  sb_waitForPort sb located (MOLTBOT_PORT cfg) (STARTUP_TIMEOUT_MS cfg) w3 = (w4, Ok tt) ->
  exists probe,
    ensureMoltbotGateway sb cfg env w =
      (w4,
       [EvMount env true; EvList true;
        EvStart hashReadCommand None (Some probe); EvSleep 500; EvGetLogs probe true;
        EvWaitForPort located (MOLTBOT_PORT cfg) (STARTUP_TIMEOUT_MS cfg) true],
       Ok located).
Proof.
  intros Hm Hf Hv Hc Hw.
  pose proof (findExisting_found_trace _ _ _ _ _ Hf) as ->.
  destruct (isGatewayCurrentVersion_current_trace _ _ _ _ _ _ Hv Hc) as [probe ->].
  exists probe.
  unfold ensureMoltbotGateway, bind, mountR2Storage.
  rewrite Hm. cbv beta iota. rewrite Hf. cbv beta iota. rewrite Hv. cbv beta iota.
  rewrite Hc. cbv beta iota delta [negb tryCatch waitForPort].
  rewrite Hw. reflexivity.
Qed.

(** C6. On the reuse path (the mount returns, a process is located, its
    fingerprint is current, its port becomes reachable)
    [ensureMoltbotGateway] returns the located handle itself. No kill is
    issued and the gateway is not started: the calls of the run are the
    mount, the listing, the fingerprint read that establishes the premise (the
    read command, its settling delay and its logs) and one wait on the gateway
    port with the full startup timeout, whatever the status of the located
    process. *)
Theorem ensure_reuse_path {W : Type} (sb : Sandbox W) (cfg : Config)
    (env : MoltbotEnv) (w w1 w2 w3 w4 : W) (tl tv : list Event)
    (located : Process) (vc : VersionCheckResult) :
  sb_mountR2Storage sb env w = (w1, Ok tt) ->
  findExistingMoltbotProcess sb w1 = (w2, tl, Ok (Some located)) ->
  isGatewayCurrentVersion sb env w2 = (w3, tv, Ok vc) ->
  current vc = true ->
  sb_waitForPort sb located (MOLTBOT_PORT cfg) (STARTUP_TIMEOUT_MS cfg) w3 = (w4, Ok tt) ->
  exists probe t,
    ensureMoltbotGateway sb cfg env w = (w4, t, Ok located) /\
    t = [EvMount env true; EvList true;
         EvStart hashReadCommand None (Some probe); EvSleep 500; EvGetLogs probe true;
         EvWaitForPort located (MOLTBOT_PORT cfg) (STARTUP_TIMEOUT_MS cfg) true] /\
    existsb is_kill t = false /\
    gatewayStarts t = 0%nat /\
    List.length (filter is_start t) = 1%nat /\
    forallb (fun e => implb (is_start e) (is_hash_read e)) t = true.
Proof.
  intros Hm Hf Hv Hc Hw.
  destruct (ensure_reuse_run sb cfg env _ _ _ _ _ _ _ _ _ Hm Hf Hv Hc Hw)
    as [probe Hrun].
  exists probe. eexists. split; [exact Hrun|].
  repeat split; reflexivity.
Qed.

Lemma ensure_gatewayStarts_le_1 {W : Type} (sb : Sandbox W) (cfg : Config)
    (env : MoltbotEnv) (w : W) :
  (let '(_, t, _) := ensureMoltbotGateway sb cfg env w in gatewayStarts t <= 1)%nat.
Proof.
  unfold ensureMoltbotGateway, startNewGateway, findExistingMoltbotProcess,
    isGatewayCurrentVersion.
  run_monad. all_calls; vm_compute; lia.
Qed.

Lemma gatewayStarts_app (t1 t2 : list Event) :
  gatewayStarts (t1 ++ t2) = (gatewayStarts t1 + gatewayStarts t2)%nat.
Proof. unfold gatewayStarts. rewrite filter_app, length_app. reflexivity. Qed.

(** C9, as the code has it. Two calls of [ensureMoltbotGateway] in
    succession with the same configuration, the first of which returned [p]:
    when the sandbox then locates that process as the live gateway (the same
    id, whatever its status by then), its port is reachable, and the
    fingerprint the gateway persisted reads back as the one of the
    configuration, the second call returns the located handle, starts no
    gateway and kills nothing, and both calls together start the gateway at
    most once. Without the persisted fingerprint the second call restarts the
    gateway. *)
Theorem ensure_twice_one_gateway_start {W : Type} (sb : Sandbox W)
    (cfg : Config) (env : MoltbotEnv) (w0 w1 w1a w1b w1c w2 : W)
    (t1 tl tr : list Event) (p q : Process) (logs : Logs) :
  ensureMoltbotGateway sb cfg env w0 = (w1, t1, Ok p) ->
  sb_mountR2Storage sb env w1 = (w1a, Ok tt) ->
  findExistingMoltbotProcess sb w1a = (w1b, tl, Ok (Some q)) ->
  id q = id p ->
  fingerprintRead sb w1b = (w1c, tr, Ok logs) ->
  trim (orEmpty (stdout logs)) = computeConfigHash env ->
  sb_waitForPort sb q (MOLTBOT_PORT cfg) (STARTUP_TIMEOUT_MS cfg) w1c = (w2, Ok tt) ->
  exists t2,
    ensureMoltbotGateway sb cfg env w1 = (w2, t2, Ok q) /\
    gatewayStarts t2 = 0%nat /\
    existsb is_kill t2 = false /\
    (gatewayStarts (t1 ++ t2) <= 1)%nat.
Proof.
  intros H1 Hm Hf _ Hr Hh Hw.
  pose proof (fingerprintRead_current sb env _ _ _ _ Hr Hh) as Hv.
  destruct (ensure_reuse_run sb cfg env _ _ _ _ _ _ _ _ _ Hm Hf Hv eq_refl Hw)
    as [probe Hrun].
  eexists. split; [exact Hrun|].
  pose proof (ensure_gatewayStarts_le_1 sb cfg env w0) as Hle.
  rewrite H1 in Hle.
  rewrite gatewayStarts_app.
  repeat split; try reflexivity.
  change (gatewayStarts _) with 0%nat at 2. lia.
Qed.

(* ------------------------------------------------------------------ *)
(** ** Restart *)

Ltac split_suffix4 :=
  first [ exact (eq_refl : _ = [] ++ [_; _; _; _])
        | exact (eq_refl : _ = [_] ++ [_; _; _; _])
        | exact (eq_refl : _ = [_; _] ++ [_; _; _; _])
        | exact (eq_refl : _ = [_; _; _] ++ [_; _; _; _]) ].

Ltac located_kill :=
  let w1 := fresh "w1" in let ps := fresh "ps" in let p := fresh "p" in
  let Hl := fresh "Hl" in let Hf := fresh "Hf" in
  intros w1 ps p Hl Hf;
  first
    [ discriminate Hl
    | injection Hl as <- <-;
      first
        [ congruence
        | match goal with
          | H : findLoop _ = Some ?q |- _ =>
              assert (q = p) by congruence; subst q
          end;
          eexists; eexists; reflexivity ] ].

(** C8, as the code has it. [restartMoltbotGateway] first locates the
    gateway and kills the located process, whatever its fingerprint: no
    fingerprint read is ever issued, the only process it starts is the
    gateway command. The storage mount comes after the locate and the kill
    and before the start. A returned handle is the one just started, after its
    successful wait on the gateway port with the startup timeout and the read
    of its logs. *)
Theorem restart_kill_mount_start {W : Type} (sb : Sandbox W) (cfg : Config)
    (env : MoltbotEnv) (w : W) :
  let '(_, t, r) := restartMoltbotGateway sb cfg env w in
  (exists ok t', t = EvList ok :: t') /\
  (forall w1 ps p,
     sb_listProcesses sb w = (w1, Ok ps) -> findLoop ps = Some p ->
     exists ok t', t = EvList true :: EvKill p ok :: t') /\
  existsb is_hash_read t = false /\
  forallb (fun e => implb (is_start e) (is_gateway_start e)) t = true /\
  noneAfter is_mount is_list t /\
  noneAfter is_mount is_kill t /\
  precededBy is_mount_ok is_start t /\
  (forall q, r = Ok q ->
     exists pre,
       t = pre ++
           [EvMount env true;
            EvStart gatewayCommand (envOption (buildEnvVars cfg env)) (Some q);
            EvWaitForPort q (MOLTBOT_PORT cfg) (STARTUP_TIMEOUT_MS cfg) true;
            EvGetLogs q true] /\
       existsb is_start pre = false /\ existsb is_mount pre = false).
Proof.
  unfold restartMoltbotGateway, findExistingMoltbotProcess.
  run_monad. all_calls;
    (split; [eexists; eexists; reflexivity|];
     split; [located_kill|];
     split; [reflexivity|];
     split; [reflexivity|];
     split; [apply noneAfterb_sound; reflexivity|];
     split; [apply noneAfterb_sound; reflexivity|];
     split; [apply precededByb_sound; reflexivity|];
     intros q Hq; try discriminate Hq; injection Hq as <-;
     eexists; (split; [split_suffix4 | split; reflexivity])).
Qed.

(* ------------------------------------------------------------------ *)
(** ** The failure paths of the fresh start *)

(** Whatever the logs say, a failed wait of the fresh start surfaces as the
    error of the wait: the [Error] built from the error stream is thrown
    inside the [try] whose [catch] rethrows the first error. *)
Lemma startNewGateway_wait_failure {W : Type} (sb : Sandbox W) (cfg : Config)
    (env : MoltbotEnv) (w w1 w2 : W) (p : Process) (e : exn) :
  sb_startProcess sb gatewayCommand (envOption (buildEnvVars cfg env)) w = (w1, Ok p) ->
  sb_waitForPort sb p (MOLTBOT_PORT cfg) (STARTUP_TIMEOUT_MS cfg) w1 = (w2, Throw e) ->
  exists w' t, startNewGateway sb cfg env w = (w', t, Throw e).
Proof.
  intros Hs Hw. unfold startNewGateway. run_monad.
  rewrite Hs. msimpl. rewrite Hw. msimpl.
  destruct (sb_getLogs sb p w2) as [w3 [logs|e']]; msimpl;
    eexists; eexists; reflexivity.
Qed.

(** A failure to read the logs after a successful wait reaches the caller. *)
Lemma startNewGateway_logs_failure {W : Type} (sb : Sandbox W) (cfg : Config)
    (env : MoltbotEnv) (w w1 w2 w3 : W) (p : Process) (e : exn) :
  sb_startProcess sb gatewayCommand (envOption (buildEnvVars cfg env)) w = (w1, Ok p) ->
  sb_waitForPort sb p (MOLTBOT_PORT cfg) (STARTUP_TIMEOUT_MS cfg) w1 = (w2, Ok tt) ->
  sb_getLogs sb p w2 = (w3, Throw e) ->
  exists w' t, startNewGateway sb cfg env w = (w', t, Throw e).
Proof.
  intros Hs Hw Hg. unfold startNewGateway. run_monad.
  rewrite Hs. msimpl. rewrite Hw. msimpl. rewrite Hg. msimpl.
  destruct (sb_getLogs sb p w3) as [w4 [logs|e']]; msimpl;
    eexists; eexists; reflexivity.
Qed.

(** C1, the code at a failing input. The gateway is started, its port never
    opens, its logs are readable and carry an error stream: the run ends in
    the error of the wait, and the caller gets nothing of the error stream. *)
Theorem ensure_timeout_loses_stderr :
  sb_getLogs (simSandbox stuck) gw0 runningWorld =
    (runningWorld,
     Ok {| stdout := Some (lit "gateway booting");
           stderr := Some (lit "bind: address already in use") |}) /\
  ensureMoltbotGateway (simSandbox stuck) simCfg envNone emptyWorld =
    (runningWorld,
     [EvMount envNone true; EvList true;
      EvStart gatewayCommand None (Some gw0);
      EvWaitForPort gw0 18789 180000 false;
      EvGetLogs gw0 true],
     Throw (ErrorObj (lit "timed out waiting for port"))) /\
  ErrorObj (lit "timed out waiting for port") <>
  ErrorObj (lit "Moltbot gateway failed to start. Stderr: " ++
            orDefault (Some (lit "bind: address already in use")) (lit "(empty)")).
Proof.
  split; [|split]; try (vm_compute; reflexivity).
  vm_compute. discriminate.
Qed.

(** C2, the code at a failing input. The gateway is started and its port
    opens, then the read of its logs fails: both [ensureMoltbotGateway] and
    [restartMoltbotGateway] end in that error. *)
Theorem ensure_restart_propagate_log_failure :
  ensureMoltbotGateway (simSandbox logless) simCfg envNone emptyWorld =
    (runningWorld,
     [EvMount envNone true; EvList true;
      EvStart gatewayCommand None (Some gw0);
      EvWaitForPort gw0 18789 180000 true;
      EvGetLogs gw0 false; EvGetLogs gw0 false],
     Throw (ErrorObj (lit "logs unavailable"))) /\
  restartMoltbotGateway (simSandbox logless) simCfg envNone emptyWorld =
    (runningWorld,
     [EvList true; EvMount envNone true;
      EvStart gatewayCommand None (Some gw0);
      EvWaitForPort gw0 18789 180000 true;
      EvGetLogs gw0 false],
     Throw (ErrorObj (lit "logs unavailable"))).
Proof. split; vm_compute; reflexivity. Qed.

(* ------------------------------------------------------------------ *)
(** ** Runs on the simulated sandbox *)

(** Two environments with the same snapshot (an absent and an empty
    [DEV_MODE], an untracked binding) have the same fingerprint. *)
Lemma computeConfigHash_djb2_hex8_witness :
  relevantConfig envNone = relevantConfig envEmptyDevMode /\
  (computeConfigHash envNone = computeConfigHash envEmptyDevMode /\
   computeConfigHash envNone =
     hex8_spec (djb2_spec (JSON_stringify (relevantConfig envNone))) /\
   List.length (computeConfigHash envNone) = 8%nat /\
   forallb isLowerHexChar (computeConfigHash envNone) = true).
Proof.
  split.
  - reflexivity.
  - apply (computeConfigHash_djb2_hex8 envNone envEmptyDevMode). reflexivity.
Defined.

(** The persisted fingerprint followed by a newline is read as current. *)
Lemma isGatewayCurrentVersion_trims_witness :
  fingerprintRead (simSandbox healthy) runningWorld =
    (reusedWorld, hashReadTrace, Ok hashReadLogs) /\
  isGatewayCurrentVersion (simSandbox healthy) envNone runningWorld =
    (reusedWorld, hashReadTrace,
     Ok {| current := true;
           expectedHash := computeConfigHash envNone;
           runningHash := Some (computeConfigHash envNone);
           reason := None |}).
Proof.
  assert (H : fingerprintRead (simSandbox healthy) runningWorld =
              (reusedWorld, hashReadTrace, Ok hashReadLogs))
    by (vm_compute; reflexivity).
  split.
  - exact H.
  - apply (proj2 (isGatewayCurrentVersion_trims (simSandbox healthy) envNone
                    runningWorld reusedWorld hashReadTrace hashReadLogs H)
             [] [10]).
    + reflexivity.
    + reflexivity.
    + vm_compute. reflexivity.
Defined.

(** The reuse path on the simulated sandbox. *)
Lemma ensure_reuse_path_witness :
  sb_mountR2Storage (simSandbox healthy) envNone runningWorld = (runningWorld, Ok tt) /\
  findExistingMoltbotProcess (simSandbox healthy) runningWorld =
    (runningWorld, [EvList true], Ok (Some gw0)) /\
  isGatewayCurrentVersion (simSandbox healthy) envNone runningWorld =
    (reusedWorld, hashReadTrace, Ok currentResult) /\
  current currentResult = true /\
  sb_waitForPort (simSandbox healthy) gw0 (MOLTBOT_PORT simCfg)
    (STARTUP_TIMEOUT_MS simCfg) reusedWorld = (reusedWorld, Ok tt) /\
  exists probe t,
    ensureMoltbotGateway (simSandbox healthy) simCfg envNone runningWorld =
      (reusedWorld, t, Ok gw0) /\
    t = [EvMount envNone true; EvList true;
         EvStart hashReadCommand None (Some probe); EvSleep 500; EvGetLogs probe true;
         EvWaitForPort gw0 (MOLTBOT_PORT simCfg) (STARTUP_TIMEOUT_MS simCfg) true] /\
    existsb is_kill t = false /\
    gatewayStarts t = 0%nat /\
    List.length (filter is_start t) = 1%nat /\
    forallb (fun e => implb (is_start e) (is_hash_read e)) t = true.
Proof.
  assert (Hm : sb_mountR2Storage (simSandbox healthy) envNone runningWorld =
               (runningWorld, Ok tt)) by reflexivity.
  assert (Hf : findExistingMoltbotProcess (simSandbox healthy) runningWorld =
               (runningWorld, [EvList true], Ok (Some gw0)))
    by (vm_compute; reflexivity).
  assert (Hv : isGatewayCurrentVersion (simSandbox healthy) envNone runningWorld =
               (reusedWorld, hashReadTrace, Ok currentResult))
    by (vm_compute; reflexivity).
  assert (Hw : sb_waitForPort (simSandbox healthy) gw0 (MOLTBOT_PORT simCfg)
                 (STARTUP_TIMEOUT_MS simCfg) reusedWorld = (reusedWorld, Ok tt))
    by reflexivity.
  repeat (split; [assumption || reflexivity|]).
  exact (ensure_reuse_path (simSandbox healthy) simCfg envNone
           runningWorld runningWorld runningWorld reusedWorld reusedWorld
           [EvList true] hashReadTrace gw0 currentResult Hm Hf Hv eq_refl Hw).
Defined.

(** Two calls in succession on the simulated sandbox: a fresh start, then a
    reuse. *)
Lemma ensure_twice_one_gateway_start_witness :
  ensureMoltbotGateway (simSandbox healthy) simCfg envNone emptyWorld =
    (runningWorld, freshTrace, Ok gw0) /\
  sb_mountR2Storage (simSandbox healthy) envNone runningWorld = (runningWorld, Ok tt) /\
  findExistingMoltbotProcess (simSandbox healthy) runningWorld =
    (runningWorld, [EvList true], Ok (Some gw0)) /\
  id gw0 = id gw0 /\
  fingerprintRead (simSandbox healthy) runningWorld =
    (reusedWorld, hashReadTrace, Ok hashReadLogs) /\
  trim (orEmpty (stdout hashReadLogs)) = computeConfigHash envNone /\
  sb_waitForPort (simSandbox healthy) gw0 (MOLTBOT_PORT simCfg)
    (STARTUP_TIMEOUT_MS simCfg) reusedWorld = (reusedWorld, Ok tt) /\
  exists t2,
    ensureMoltbotGateway (simSandbox healthy) simCfg envNone runningWorld =
      (reusedWorld, t2, Ok gw0) /\
    gatewayStarts t2 = 0%nat /\
    existsb is_kill t2 = false /\
    (gatewayStarts (freshTrace ++ t2) <= 1)%nat.
Proof.
  assert (H1 : ensureMoltbotGateway (simSandbox healthy) simCfg envNone emptyWorld =
               (runningWorld, freshTrace, Ok gw0)) by (vm_compute; reflexivity).
  assert (Hm : sb_mountR2Storage (simSandbox healthy) envNone runningWorld =
               (runningWorld, Ok tt)) by reflexivity.
  assert (Hf : findExistingMoltbotProcess (simSandbox healthy) runningWorld =
               (runningWorld, [EvList true], Ok (Some gw0)))
    by (vm_compute; reflexivity).
  assert (Hi : id gw0 = id gw0) by reflexivity.
  assert (Hr : fingerprintRead (simSandbox healthy) runningWorld =
               (reusedWorld, hashReadTrace, Ok hashReadLogs))
    by (vm_compute; reflexivity).
  assert (Hh : trim (orEmpty (stdout hashReadLogs)) = computeConfigHash envNone)
    by (vm_compute; reflexivity).
  assert (Hw : sb_waitForPort (simSandbox healthy) gw0 (MOLTBOT_PORT simCfg)
                 (STARTUP_TIMEOUT_MS simCfg) reusedWorld = (reusedWorld, Ok tt))
    by reflexivity.
  repeat (split; [assumption|]).
  exact (ensure_twice_one_gateway_start (simSandbox healthy) simCfg envNone
           emptyWorld runningWorld runningWorld runningWorld reusedWorld reusedWorld
           freshTrace [EvList true] hashReadTrace gw0 gw0 hashReadLogs
           H1 Hm Hf Hi Hr Hh Hw).
Defined.

(** C9 as stated fails: in a container whose gateway persists no
    fingerprint, the first call starts the gateway and returns it, the
    sandbox then locates it as live and its port is reachable, and the second
    call, with the same configuration, still kills it and starts the gateway
    again: two gateway starts, and the handle returned is a new one. *)
Lemma ensure_twice_without_fingerprint_restarts :
  ensureMoltbotGateway (simSandbox forgetful) simCfg envNone emptyWorld =
    (unmarkedWorld, freshTrace, Ok gw0) /\
  findExistingMoltbotProcess (simSandbox forgetful) unmarkedWorld =
    (unmarkedWorld, [EvList true], Ok (Some gw0)) /\
  sb_waitForPort (simSandbox forgetful) gw0 (MOLTBOT_PORT simCfg)
    (STARTUP_TIMEOUT_MS simCfg) unmarkedWorld = (unmarkedWorld, Ok tt) /\
  exists w2 t2,
    ensureMoltbotGateway (simSandbox forgetful) simCfg envNone unmarkedWorld =
      (w2, t2, Ok gw2) /\
    In (EvKill gw0 true) t2 /\
    gw2 <> gw0 /\
    gatewayStarts (freshTrace ++ t2) = 2%nat /\
    ~ (gatewayStarts (freshTrace ++ t2) <= 1)%nat.
Proof.
  split; [vm_compute; reflexivity|].
  split; [vm_compute; reflexivity|].
  split; [reflexivity|].
  eexists. eexists. split; [vm_compute; reflexivity|].
  split; [simpl; tauto|].
  split; [discriminate|].
  split; [vm_compute; reflexivity|].
  vm_compute. lia.
Qed.

(** C8 as stated fails: with a gateway running, the restart lists and kills
    before it mounts the storage. *)
Lemma restart_kills_before_mount :
  restartMoltbotGateway (simSandbox healthy) simCfg envNone runningWorld =
    (restartedWorld, restartTrace, Ok gw1) /\
  ~ precededBy is_mount is_kill restartTrace /\
  ~ precededBy is_mount is_list restartTrace.
Proof.
  split; [vm_compute; reflexivity|]. split.
  - intros H.
    specialize (H [EvList true] (EvKill gw0 true)
                  [EvSleep 2000; EvMount envNone true;
                   EvStart gatewayCommand None (Some gw1);
                   EvWaitForPort gw1 18789 180000 true; EvGetLogs gw1 true]
                  eq_refl eq_refl).
    discriminate H.
  - intros H.
    specialize (H [] (EvList true)
                  [EvKill gw0 true; EvSleep 2000; EvMount envNone true;
                   EvStart gatewayCommand None (Some gw1);
                   EvWaitForPort gw1 18789 180000 true; EvGetLogs gw1 true]
                  eq_refl eq_refl).
    discriminate H.
Qed.


(* ------------------------------------------------------------------ *)
(** ** Hexadecimal numerals *)

Lemma hexVal_hexDigit (d : Z) : 0 <= d < 16 -> hexVal (hexDigit d) = d.
Proof.
  intros H. unfold hexVal, hexDigit.
  destruct (d <? 10) eqn:E; [apply Z.ltb_lt in E | apply Z.ltb_ge in E].
  - replace ((48 <=? 48 + d) && (48 + d <=? 57)) with true; [lia|].
    symmetry. apply andb_true_iff. split; apply Z.leb_le; lia.
  - replace ((48 <=? 87 + d) && (87 + d <=? 57)) with false; [lia|].
    symmetry. apply andb_false_iff. right. apply Z.leb_gt. lia.
Qed.

Lemma hex4_value (c : Z) :
  0 <= c < 65536 ->
  4096 * ((c / 4096) mod 16) + 256 * ((c / 256) mod 16) +
  16 * ((c / 16) mod 16) + c mod 16 = c.
Proof.
  intros H.
  replace (c / 256) with (c / 16 / 16) by (rewrite Z.div_div by lia; reflexivity).
  replace (c / 4096) with (c / 16 / 16 / 16) by (rewrite !Z.div_div by lia; reflexivity).
  pose proof (Z.div_mod c 16 ltac:(lia)).
  pose proof (Z.div_mod (c / 16) 16 ltac:(lia)).
  pose proof (Z.div_mod (c / 16 / 16) 16 ltac:(lia)).
  assert (c / 16 / 16 / 16 < 16).
  { rewrite !Z.div_div by lia. apply Z.div_lt_upper_bound; lia. }
  assert (0 <= c / 16 / 16 / 16) by (repeat apply Z.div_pos; lia).
  rewrite (Z.mod_small (c / 16 / 16 / 16) 16) by lia.
  lia.
Qed.

Lemma parseHex_hex8 (h : Z) : 0 <= h < 2 ^ 32 -> parseHex (hex8_spec h) = h.
Proof.
  intros H. rewrite <- fixHex_8_spec. unfold parseHex. cbn [fixHex fold_left].
  rewrite !hexVal_hexDigit by (apply Z.mod_pos_bound; lia).
  pose proof (Z.div_mod h 16 ltac:(lia)).
  pose proof (Z.div_mod (h / 16) 16 ltac:(lia)).
  pose proof (Z.div_mod (h / 16 / 16) 16 ltac:(lia)).
  pose proof (Z.div_mod (h / 16 / 16 / 16) 16 ltac:(lia)).
  pose proof (Z.div_mod (h / 16 / 16 / 16 / 16) 16 ltac:(lia)).
  pose proof (Z.div_mod (h / 16 / 16 / 16 / 16 / 16) 16 ltac:(lia)).
  pose proof (Z.div_mod (h / 16 / 16 / 16 / 16 / 16 / 16) 16 ltac:(lia)).
  assert (h / 16 / 16 / 16 / 16 / 16 / 16 / 16 < 16).
  { rewrite !Z.div_div by lia. apply Z.div_lt_upper_bound; lia. }
  assert (0 <= h / 16 / 16 / 16 / 16 / 16 / 16 / 16) by (repeat apply Z.div_pos; lia).
  rewrite (Z.mod_small (h / 16 / 16 / 16 / 16 / 16 / 16 / 16) 16) by lia.
  lia.
Qed.

(* ------------------------------------------------------------------ *)
(** ** Reading back quoted strings *)

Lemma readQuoted_raw (c : Z) (s : jsstring) :
  (c =? 34) = false -> (c =? 92) = false ->
  readQuoted (c :: s) =
  match readQuoted s with Some (v, r) => Some (c :: v, r) | None => None end.
Proof. intros H1 H2. cbn [readQuoted]. rewrite H1, H2. reflexivity. Qed.

Lemma readQuoted_short (x : Z) (s : jsstring) :
  (x =? 117) = false ->
  readQuoted (92 :: x :: s) =
  match readQuoted s with
  | Some (v, r) => Some (unescapeShort x :: v, r)
  | None => None
  end.
Proof.
  intros H. cbn [readQuoted].
  change (92 =? 34) with false. change (92 =? 92) with true. cbv beta iota.
  rewrite H. reflexivity.
Qed.

Lemma readQuoted_u (a b c d : Z) (s : jsstring) :
  readQuoted (92 :: 117 :: a :: b :: c :: d :: s) =
  match readQuoted s with
  | Some (v, r) =>
      Some (4096 * hexVal a + 256 * hexVal b + 16 * hexVal c + hexVal d :: v, r)
  | None => None
  end.
Proof. reflexivity. Qed.

Lemma readQuoted_unicodeEscape (c : Z) (s : jsstring) :
  0 <= c < 65536 ->
  readQuoted (unicodeEscape c ++ s) =
  match readQuoted s with Some (v, r) => Some (c :: v, r) | None => None end.
Proof.
  intros H. unfold unicodeEscape, hex4. cbn [app].
  rewrite readQuoted_u.
  rewrite !hexVal_hexDigit by (apply Z.mod_pos_bound; lia).
  rewrite hex4_value by exact H. reflexivity.
Qed.

Lemma readQuoted_escape_len (n : nat) :
  forall (s r : jsstring),
    (List.length s <= n)%nat -> wellFormed s = true ->
    readQuoted (escapeJSON s ++ 34 :: r) = Some (s, r).
Proof.
  induction n as [|n IH]; intros s r Hlen Hwf.
  - destruct s; [reflexivity | simpl in Hlen; lia].
  - destruct s as [|c rest]; [reflexivity|].
    simpl in Hlen.
    unfold wellFormed in Hwf. cbn [forallb] in Hwf.
    apply andb_true_iff in Hwf. destruct Hwf as [Hc Hrest].
    unfold isCodeUnit in Hc. apply andb_true_iff in Hc. destruct Hc as [Hc0 Hc1].
    apply Z.leb_le in Hc0. apply Z.ltb_lt in Hc1.
    assert (IHrest : readQuoted (escapeJSON rest ++ 34 :: r) = Some (rest, r))
      by (apply IH; [lia | exact Hrest]).
    cbn [escapeJSON].
    destruct (c =? 8) eqn:E8.
    { apply Z.eqb_eq in E8. subst c. rewrite <- app_assoc.
      change (lit "\b") with [92; 98]. cbn [app].
      rewrite readQuoted_short by reflexivity. rewrite IHrest. reflexivity. }
    destruct (c =? 9) eqn:E9.
    { apply Z.eqb_eq in E9. subst c. rewrite <- app_assoc.
      change (lit "\t") with [92; 116]. cbn [app].
      rewrite readQuoted_short by reflexivity. rewrite IHrest. reflexivity. }
    destruct (c =? 10) eqn:E10.
    { apply Z.eqb_eq in E10. subst c. rewrite <- app_assoc.
      change (lit "\n") with [92; 110]. cbn [app].
      rewrite readQuoted_short by reflexivity. rewrite IHrest. reflexivity. }
    destruct (c =? 12) eqn:E12.
    { apply Z.eqb_eq in E12. subst c. rewrite <- app_assoc.
      change (lit "\f") with [92; 102]. cbn [app].
      rewrite readQuoted_short by reflexivity. rewrite IHrest. reflexivity. }
    destruct (c =? 13) eqn:E13.
    { apply Z.eqb_eq in E13. subst c. rewrite <- app_assoc.
      change (lit "\r") with [92; 114]. cbn [app].
      rewrite readQuoted_short by reflexivity. rewrite IHrest. reflexivity. }
    destruct (c =? 34) eqn:E34.
    { apply Z.eqb_eq in E34. subst c. rewrite <- app_assoc. cbn [app].
      rewrite readQuoted_short by reflexivity. rewrite IHrest. reflexivity. }
    destruct (c =? 92) eqn:E92.
    { apply Z.eqb_eq in E92. subst c. rewrite <- app_assoc. cbn [app].
      rewrite readQuoted_short by reflexivity. rewrite IHrest. reflexivity. }
    destruct (c <? 32) eqn:E32.
    { rewrite <- app_assoc, readQuoted_unicodeEscape by lia.
      rewrite IHrest. reflexivity. }
    destruct (isLeadingSurrogate c) eqn:El.
    { destruct rest as [|d rest'].
      - rewrite readQuoted_unicodeEscape by lia. reflexivity.
      - destruct (isTrailingSurrogate d) eqn:Et.
        + cbn [app]. rewrite readQuoted_raw by assumption.
          unfold isTrailingSurrogate in Et. apply andb_true_iff in Et.
          destruct Et as [Et _]. apply Z.leb_le in Et.
          rewrite readQuoted_raw by (apply Z.eqb_neq; lia).
          cbn [forallb] in Hrest. apply andb_true_iff in Hrest.
          destruct Hrest as [_ Hrest'].
          simpl in Hlen.
          rewrite (IH rest' r) by (try lia; exact Hrest'). reflexivity.
        + rewrite <- app_assoc, readQuoted_unicodeEscape by lia.
          rewrite IHrest. reflexivity. }
    destruct (isTrailingSurrogate c) eqn:Et.
    { rewrite <- app_assoc, readQuoted_unicodeEscape by lia.
      rewrite IHrest. reflexivity. }
    cbn [app]. rewrite readQuoted_raw by assumption.
    rewrite IHrest. reflexivity.
Qed.

Lemma readQuoted_escape (s r : jsstring) :
  wellFormed s = true -> readQuoted (escapeJSON s ++ 34 :: r) = Some (s, r).
Proof. apply (readQuoted_escape_len (List.length s)). lia. Qed.

(** A quoted string determines the string and what follows it. *)
Lemma quoteJSON_inj (s1 s2 r1 r2 : jsstring) :
  wellFormed s1 = true -> wellFormed s2 = true ->
  quoteJSON s1 ++ r1 = quoteJSON s2 ++ r2 -> s1 = s2 /\ r1 = r2.
Proof.
  intros H1 H2 E. unfold quoteJSON in E.
  rewrite <- !app_assoc in E. cbn [app] in E. injection E as E.
  pose proof (readQuoted_escape s1 r1 H1) as R1.
  pose proof (readQuoted_escape s2 r2 H2) as R2.
  rewrite E in R1. rewrite R1 in R2. injection R2 as -> ->. auto.
Qed.

(* ------------------------------------------------------------------ *)
(** ** The configuration string determines the snapshot *)

Lemma jsonEntry_inj (k v1 v2 r1 r2 : jsstring) :
  wellFormed v1 = true -> wellFormed v2 = true ->
  jsonEntry (k, v1) ++ r1 = jsonEntry (k, v2) ++ r2 -> v1 = v2 /\ r1 = r2.
Proof.
  intros H1 H2 E. unfold jsonEntry in E. cbn [fst snd] in E.
  rewrite <- !app_assoc in E.
  apply app_inv_head in E. apply app_inv_head in E.
  apply (quoteJSON_inj v1 v2 r1 r2 H1 H2 E).
Qed.

Lemma joinWith_cons (sep x : jsstring) (l : list jsstring) :
  joinWith sep (x :: l) =
  x ++ match l with [] => [] | _ => sep ++ joinWith sep l end.
Proof. destruct l; simpl; [rewrite app_nil_r|]; reflexivity. Qed.

Lemma joinWith_entries_inj (sep suffix : jsstring) :
  forall t1 t2 : list (jsstring * jsstring),
    map fst t1 = map fst t2 ->
    forallb (fun kv => wellFormed (snd kv)) t1 = true ->
    forallb (fun kv => wellFormed (snd kv)) t2 = true ->
    joinWith sep (map jsonEntry t1) ++ suffix =
    joinWith sep (map jsonEntry t2) ++ suffix ->
    t1 = t2.
Proof.
  induction t1 as [|[k v1] t1 IH]; intros [|[k2 v2] t2] Hk W1 W2 E;
    try discriminate Hk; [reflexivity|].
  cbn [map fst] in Hk. injection Hk as <- Hk.
  cbn [forallb snd] in W1, W2.
  apply andb_true_iff in W1. destruct W1 as [Wv1 W1].
  apply andb_true_iff in W2. destruct W2 as [Wv2 W2].
  cbn [map] in E. rewrite !joinWith_cons, <- !app_assoc in E.
  apply jsonEntry_inj in E; [|assumption|assumption].
  destruct E as [<- E]. f_equal.
  destruct t1 as [|e1 t1]; destruct t2 as [|e2 t2]; try discriminate Hk.
  - reflexivity.
  - cbn [map] in E. rewrite <- !app_assoc in E. apply app_inv_head in E.
    apply IH; assumption.
Qed.

(** X1. The string that [computeConfigHash] hashes determines the snapshot:
    for environments whose tracked values are strings of code units, two
    configuration strings are equal exactly when every tracked field (after
    its default) is equal. Only the 32-bit hash can make two different
    snapshots share a fingerprint, never the serialization. *)
Theorem configString_injective (env1 env2 : MoltbotEnv) :
  wellFormedEnv env1 = true -> wellFormedEnv env2 = true ->
  (JSON_stringify (relevantConfig env1) = JSON_stringify (relevantConfig env2) <->
   relevantConfig env1 = relevantConfig env2).
Proof.
  intros W1 W2. split; [|intros ->; reflexivity].
  unfold JSON_stringify. intros E.
  apply app_inv_head in E.
  apply (joinWith_entries_inj (lit ",") (lit "}")); try assumption.
  reflexivity.
Qed.

(** X2. The eight digits of the fingerprint read back, as a hexadecimal
    numeral, as the 32-bit hash itself; hence two environments have the same
    fingerprint exactly when their configuration strings have the same
    hash. *)
Theorem fingerprint_reads_back (env env' : MoltbotEnv) :
  parseHex (computeConfigHash env) = djb2_spec (JSON_stringify (relevantConfig env)) /\
  (computeConfigHash env = computeConfigHash env' <->
   djb2_spec (JSON_stringify (relevantConfig env)) =
   djb2_spec (JSON_stringify (relevantConfig env'))).
Proof.
  assert (P : forall e, parseHex (computeConfigHash e) =
                        djb2_spec (JSON_stringify (relevantConfig e))).
  { intros e. rewrite computeConfigHash_spec. apply parseHex_hex8, djb2_spec_range. }
  split; [apply P|]. split.
  - intros E. rewrite <- !P, E. reflexivity.
  - intros E. rewrite !computeConfigHash_spec, E. reflexivity.
Qed.

(* ------------------------------------------------------------------ *)
(** ** Calls of the locator, the version check, ensure and restart *)

Lemma findLoop_first (ps : list Process) (p : Process) :
  findLoop ps = Some p ->
  exists before after,
    ps = before ++ p :: after /\
    forall q, In q before -> liveMatch q = false.
Proof.
  induction ps as [|x ps IH]; simpl; intros H; [discriminate|].
  destruct (isGatewayProcess x && negb (isCliCommand x)) eqn:E.
  - destruct (isLive x) eqn:El.
    + injection H as <-. exists [], ps. split; [reflexivity | intros q []].
    + destruct (IH H) as (b & a & -> & Hb).
      exists (x :: b), a. split; [reflexivity|].
      intros q [<-|Hq]; [unfold liveMatch; rewrite E, El; reflexivity | apply Hb, Hq].
  - destruct (IH H) as (b & a & -> & Hb).
    exists (x :: b), a. split; [reflexivity|].
    intros q [<-|Hq]; [unfold liveMatch; rewrite E; reflexivity | apply Hb, Hq].
Qed.

(** X3. [findExistingMoltbotProcess] makes one sandbox call, the listing,
    and leaves the world as the listing left it; the process it returns is the
    first live match in listing order: no process listed before it is a live
    gateway match. *)
Theorem locator_first_live_match {W : Type} (sb : Sandbox W) (w : W) :
  exists r,
    findExistingMoltbotProcess sb w =
      (fst (sb_listProcesses sb w),
       [EvList (isOk (snd (sb_listProcesses sb w)))], Ok r) /\
    forall p, r = Some p ->
      exists before after,
        snd (sb_listProcesses sb w) = Ok (before ++ p :: after) /\
        forall q, In q before -> liveMatch q = false.
Proof.
  unfold findExistingMoltbotProcess. run_monad.
  destruct (sb_listProcesses sb w) as [w1 [ps|e]]; msimpl.
  - exists (findLoop ps). split; [reflexivity|].
    intros p Hp. destruct (findLoop_first ps p Hp) as (b & a & -> & Hb).
    exists b, a. split; [reflexivity | exact Hb].
  - exists None. split; [reflexivity | discriminate].
Qed.

(** X4. Whatever the sandbox does, [isGatewayCurrentVersion] makes at most
    three calls: the start of the read command (with no options), and, when
    that start returns, the 500 ms delay and one read of the logs of the
    process just started. It never lists, kills, mounts or waits for a
    port. *)
Theorem isGatewayCurrentVersion_calls {W : Type} (sb : Sandbox W)
    (env : MoltbotEnv) (w : W) :
  let '(_, t, _) := isGatewayCurrentVersion sb env w in
  t = [EvStart hashReadCommand None None] \/
  exists probe ok,
    t = [EvStart hashReadCommand None (Some probe); EvSleep 500; EvGetLogs probe ok].
Proof.
  unfold isGatewayCurrentVersion. run_monad.
  all_calls; first [left; reflexivity | right; eexists; eexists; reflexivity].
Qed.

Ltac kill_is_located :=
  let p := fresh "p" in let ok := fresh "ok" in let Hin := fresh "Hin" in
  intros p ok Hin; cbn [In] in Hin;
  repeat (destruct Hin as [Hin|Hin];
          [first [discriminate Hin
                 | injection Hin as <- <-; eexists; split; [reflexivity | assumption]]|]);
  contradiction.

(** X5. One call of [ensureMoltbotGateway] has no retry loop: whatever the
    sandbox does it mounts once, lists at most once, reads the fingerprint at
    most once, kills at most once, waits for the port at most twice, starts
    the gateway at most once and reads logs at most three times; and what it
    kills is the process the locator returned for the listing made after the
    mount. *)
Theorem ensure_call_budget {W : Type} (sb : Sandbox W) (cfg : Config)
    (env : MoltbotEnv) (w : W) :
  let '(_, t, _) := ensureMoltbotGateway sb cfg env w in
  (countEvents is_mount t = 1 /\
   countEvents is_list t <= 1 /\
   countEvents is_hash_read t <= 1 /\
   countEvents is_kill t <= 1 /\
   countEvents is_wait t <= 2 /\
   countEvents is_gateway_start t <= 1 /\
   countEvents is_getLogs t <= 3)%nat /\
  forall p ok, In (EvKill p ok) t ->
    exists ps,
      snd (sb_listProcesses sb (fst (sb_mountR2Storage sb env w))) = Ok ps /\
      findLoop ps = Some p.
Proof.
  unfold ensureMoltbotGateway, startNewGateway, findExistingMoltbotProcess,
    isGatewayCurrentVersion.
  run_monad. all_calls; (split; [vm_compute; lia | kill_is_located]).
Qed.

(** X6. One call of [restartMoltbotGateway] lists once, kills at most once,
    mounts at most once, starts at most one process, waits at most once and
    reads logs at most once; what it kills is the process the locator returned
    for the listing. *)
Theorem restart_call_budget {W : Type} (sb : Sandbox W) (cfg : Config)
    (env : MoltbotEnv) (w : W) :
  let '(_, t, _) := restartMoltbotGateway sb cfg env w in
  (countEvents is_list t = 1 /\
   countEvents is_kill t <= 1 /\
   countEvents is_mount t <= 1 /\
   countEvents is_start t <= 1 /\
   countEvents is_wait t <= 1 /\
   countEvents is_getLogs t <= 1)%nat /\
  forall p ok, In (EvKill p ok) t ->
    exists ps,
      snd (sb_listProcesses sb w) = Ok ps /\ findLoop ps = Some p.
Proof.
  unfold restartMoltbotGateway, findExistingMoltbotProcess.
  run_monad. all_calls; (split; [vm_compute; lia | kill_is_located]).
Qed.

(* ------------------------------------------------------------------ *)
(** ** The paths of ensure *)

(** X7. The stale path of [ensureMoltbotGateway]: when a process is located
    and the version check answers not current, the located process is
    killed, the 2000 ms settling delay is made only when the kill returned,
    and the fresh start follows either way: an error of the kill is
    swallowed. The outcome is the one of the fresh start. *)
Theorem ensure_stale_path {W : Type} (sb : Sandbox W) (cfg : Config)
    (env : MoltbotEnv) (w w1 w2 w3 : W) (tl tv : list Event)
    (located : Process) (vc : VersionCheckResult) :
  sb_mountR2Storage sb env w = (w1, Ok tt) ->
  findExistingMoltbotProcess sb w1 = (w2, tl, Ok (Some located)) ->
  isGatewayCurrentVersion sb env w2 = (w3, tv, Ok vc) ->
  current vc = false ->
  ensureMoltbotGateway sb cfg env w =
    let '(wk, kr) := sb_kill sb located w3 in
    let settled := if isOk kr then sb_sleep sb 2000 wk else wk in
    let '(w', t', r) := startNewGateway sb cfg env settled in
    (w',
     EvMount env true :: EvList true :: tv ++
     EvKill located (isOk kr) :: (if isOk kr then [EvSleep 2000] else []) ++ t',
     r).
Proof.
  intros Hm Hf Hv Hc.
  pose proof (findExisting_found_trace _ _ _ _ _ Hf) as ->.
  unfold ensureMoltbotGateway, bind, mountR2Storage.
  rewrite Hm. cbv beta iota. rewrite Hf. cbv beta iota. rewrite Hv. cbv beta iota.
  rewrite Hc. cbv beta iota delta [negb tryCatch kill sleep ret].
  destruct (sb_kill sb located w3) as [wk [[]|e]]; cbv beta iota delta [isOk];
    destruct (startNewGateway sb cfg env _) as [[w' t'] r];
    cbn [app]; rewrite <- ?app_assoc; cbn [app]; rewrite ?app_nil_r; reflexivity.
Qed.

(** X8. The unreachable path of [ensureMoltbotGateway]: when the located
    process is current but the wait on its port fails, the error of that wait
    is dropped, the process is killed (with no settling delay on this path,
    and whether or not the kill returns) and the fresh start follows; the
    outcome is the one of the fresh start. *)
Theorem ensure_unreachable_path {W : Type} (sb : Sandbox W) (cfg : Config)
    (env : MoltbotEnv) (w w1 w2 w3 w4 : W) (tl tv : list Event)
    (located : Process) (vc : VersionCheckResult) (e : exn) :
  sb_mountR2Storage sb env w = (w1, Ok tt) ->
  findExistingMoltbotProcess sb w1 = (w2, tl, Ok (Some located)) ->
  isGatewayCurrentVersion sb env w2 = (w3, tv, Ok vc) ->
  current vc = true ->
  sb_waitForPort sb located (MOLTBOT_PORT cfg) (STARTUP_TIMEOUT_MS cfg) w3 = (w4, Throw e) ->
  ensureMoltbotGateway sb cfg env w =
    let '(wk, kr) := sb_kill sb located w4 in
    let '(w', t', r) := startNewGateway sb cfg env wk in
    (w',
     EvMount env true :: EvList true :: tv ++
     EvWaitForPort located (MOLTBOT_PORT cfg) (STARTUP_TIMEOUT_MS cfg) false ::
     EvKill located (isOk kr) :: t',
     r).
Proof.
  intros Hm Hf Hv Hc Hw.
  pose proof (findExisting_found_trace _ _ _ _ _ Hf) as ->.
  unfold ensureMoltbotGateway, bind, mountR2Storage.
  rewrite Hm. cbv beta iota. rewrite Hf. cbv beta iota. rewrite Hv. cbv beta iota.
  rewrite Hc. cbv beta iota delta [negb tryCatch waitForPort kill ret].
  rewrite Hw. cbv beta iota delta [isOk].
  destruct (sb_kill sb located w4) as [wk [[]|e']]; cbv beta iota delta [isOk];
    destruct (startNewGateway sb cfg env _) as [[w' t'] r];
    cbn [app]; rewrite <- ?app_assoc; cbn [app]; rewrite ?app_nil_r; reflexivity.
Qed.

(** X9. When the listing fails, or holds no live gateway match,
    [ensureMoltbotGateway] goes from the mount and the listing straight to
    the fresh start: no fingerprint read, no kill. A failed listing is not
    told apart from an empty one. *)
Theorem ensure_absent_path {W : Type} (sb : Sandbox W) (cfg : Config)
    (env : MoltbotEnv) (w w1 : W) :
  sb_mountR2Storage sb env w = (w1, Ok tt) ->
  match snd (sb_listProcesses sb w1) with
  | Ok ps => forall q, In q ps -> liveMatch q = false
  | Throw _ => True
  end ->
  ensureMoltbotGateway sb cfg env w =
    let '(w', t', r) := startNewGateway sb cfg env (fst (sb_listProcesses sb w1)) in
    (w',
     EvMount env true :: EvList (isOk (snd (sb_listProcesses sb w1))) :: t',
     r).
Proof.
  intros Hm Hl.
  unfold ensureMoltbotGateway, findExistingMoltbotProcess, bind, tryCatch,
    mountR2Storage, listProcesses, ret.
  rewrite Hm. cbv beta iota.
  destruct (sb_listProcesses sb w1) as [w2 [ps|e]]; cbn [fst snd isOk] in *.
  - assert (Hn : findLoop ps = None) by (apply findLoop_None; exact Hl).
    rewrite Hn.
    destruct (startNewGateway sb cfg env w2) as [[w' t'] r]. reflexivity.
  - destruct (startNewGateway sb cfg env w2) as [[w' t'] r]. reflexivity.
Qed.

(* ------------------------------------------------------------------ *)
(** ** Failures *)

(** X10. The fresh start of [ensureMoltbotGateway] is decided by the first
    failing call among the start, the wait and the read of the logs: the
    handle is returned only when all three return, and otherwise the error
    thrown is that first failure's own. After a failure the logs are read once
    more, and neither their content nor a failure of that read changes the
    outcome. *)
Theorem startNewGateway_first_failure {W : Type} (sb : Sandbox W) (cfg : Config)
    (env : MoltbotEnv) (w : W) :
  let vars := envOption (buildEnvVars cfg env) in
  let port := MOLTBOT_PORT cfg in
  let timeout := STARTUP_TIMEOUT_MS cfg in
  startNewGateway sb cfg env w =
  match sb_startProcess sb gatewayCommand vars w with
  | (w1, Throw e) => (w1, [EvStart gatewayCommand vars None], Throw e)
  | (w1, Ok p) =>
      match sb_waitForPort sb p port timeout w1 with
      | (w2, Throw e) =>
          (fst (sb_getLogs sb p w2),
           [EvStart gatewayCommand vars (Some p);
            EvWaitForPort p port timeout false;
            EvGetLogs p (isOk (snd (sb_getLogs sb p w2)))],
           Throw e)
      | (w2, Ok _) =>
          match sb_getLogs sb p w2 with
          | (w3, Ok _) =>
              (w3,
               [EvStart gatewayCommand vars (Some p);
                EvWaitForPort p port timeout true;
                EvGetLogs p true],
               Ok p)
          | (w3, Throw e) =>
              (fst (sb_getLogs sb p w3),
               [EvStart gatewayCommand vars (Some p);
                EvWaitForPort p port timeout true;
                EvGetLogs p false;
                EvGetLogs p (isOk (snd (sb_getLogs sb p w3)))],
               Throw e)
          end
      end
  end.
Proof.
  unfold startNewGateway. run_monad. all_calls; reflexivity.
Qed.

Ltac pick_prefix :=
  first [ exact (eq_refl : _ = [] ++ _)
        | exact (eq_refl : _ = [_] ++ _)
        | exact (eq_refl : _ = [_; _] ++ _)
        | exact (eq_refl : _ = [_; _; _] ++ _)
        | exact (eq_refl : _ = [_; _; _; _] ++ _)
        | exact (eq_refl : _ = [_; _; _; _; _] ++ _)
        | exact (eq_refl : _ = [_; _; _; _; _; _] ++ _)
        | exact (eq_refl : _ = [_; _; _; _; _; _; _] ++ _)
        | exact (eq_refl : _ = [_; _; _; _; _; _; _; _] ++ _) ].

Ltac thrown_by :=
  match goal with
  | H : _ = (_, Throw ?e) |- snd _ = Throw ?e => erewrite H; reflexivity
  end.

(** X11. Every error [ensureMoltbotGateway] throws was thrown by the
    sandbox: by the storage mount (the only call made), by the start of the
    gateway command (the last call made), by the wait on the process just
    started (followed by one read of its logs), or by the read of its logs
    after a successful wait (followed by one more read). Errors of the
    listing, of the fingerprint read, of a kill and of the wait on an existing
    process end no run. *)
Theorem ensure_error_provenance {W : Type} (sb : Sandbox W) (cfg : Config)
    (env : MoltbotEnv) (w : W) :
  let vars := envOption (buildEnvVars cfg env) in
  let port := MOLTBOT_PORT cfg in
  let timeout := STARTUP_TIMEOUT_MS cfg in
  let '(_, t, r) := ensureMoltbotGateway sb cfg env w in
  forall e, r = Throw e ->
    (t = [EvMount env false] /\ snd (sb_mountR2Storage sb env w) = Throw e) \/
    (exists pre w1,
       t = pre ++ [EvStart gatewayCommand vars None] /\
       snd (sb_startProcess sb gatewayCommand vars w1) = Throw e) \/
    (exists pre p ok w1,
       t = pre ++ [EvStart gatewayCommand vars (Some p);
                   EvWaitForPort p port timeout false; EvGetLogs p ok] /\
       snd (sb_waitForPort sb p port timeout w1) = Throw e) \/
    (exists pre p ok w1,
       t = pre ++ [EvStart gatewayCommand vars (Some p);
                   EvWaitForPort p port timeout true;
                   EvGetLogs p false; EvGetLogs p ok] /\
       snd (sb_getLogs sb p w1) = Throw e).
Proof.
  unfold ensureMoltbotGateway, startNewGateway, findExistingMoltbotProcess,
    isGatewayCurrentVersion.
  run_monad. all_calls;
    (intros e' He; try discriminate He; injection He as <-;
     first
       [ left; split; [reflexivity | reflexivity]
       | right; left; eexists; eexists; split; [pick_prefix | thrown_by]
       | right; right; left; eexists; eexists; eexists; eexists;
         split; [pick_prefix | thrown_by]
       | right; right; right; eexists; eexists; eexists; eexists;
         split; [pick_prefix | thrown_by] ]).
Qed.

(** X12. [restartMoltbotGateway] stops at the first failure of the mount,
    the start, the wait or the read of the logs: that call is the last one of
    the run and its error is the one thrown; after a failed wait the logs are
    not read and the started process is not killed. Before it, only the
    listing and the kill can have failed. *)
Theorem restart_stops_at_first_failure {W : Type} (sb : Sandbox W) (cfg : Config)
    (env : MoltbotEnv) (w : W) :
  let vars := envOption (buildEnvVars cfg env) in
  let port := MOLTBOT_PORT cfg in
  let timeout := STARTUP_TIMEOUT_MS cfg in
  let '(_, t, r) := restartMoltbotGateway sb cfg env w in
  forall e, r = Throw e ->
    exists pre w1,
      forallb (fun g => implb (ev_failed g) (is_list g || is_kill g)) pre = true /\
      ((t = pre ++ [EvMount env false] /\
        snd (sb_mountR2Storage sb env w1) = Throw e) \/
       (t = pre ++ [EvStart gatewayCommand vars None] /\
        snd (sb_startProcess sb gatewayCommand vars w1) = Throw e) \/
       (exists p, t = pre ++ [EvWaitForPort p port timeout false] /\
                  snd (sb_waitForPort sb p port timeout w1) = Throw e) \/
       (exists p, t = pre ++ [EvGetLogs p false] /\
                  snd (sb_getLogs sb p w1) = Throw e)).
Proof.
  unfold restartMoltbotGateway, findExistingMoltbotProcess.
  run_monad. all_calls;
    (intros e' He; try discriminate He; injection He as <-;
     first
       [ eexists; eexists; split;
         [| left; split; [pick_prefix | thrown_by]]; reflexivity
       | eexists; eexists; split;
         [| right; left; split; [pick_prefix | thrown_by]]; reflexivity
       | eexists; eexists; split;
         [| right; right; left; eexists; split; [pick_prefix | thrown_by]]; reflexivity
       | eexists; eexists; split;
         [| right; right; right; eexists; split; [pick_prefix | thrown_by]]; reflexivity ]).
Qed.

(* ------------------------------------------------------------------ *)
(** ** The status route *)

(** X13. [GET /api/status] answers [not_running] when the listing fails or
    holds no live gateway match, and otherwise waits for port 18789 on the
    located process with a 5000 ms timeout and answers [running] or
    [not_responding] with the id of that process. *)
Theorem apiStatus_outcomes {W : Type} (sb : Sandbox W) (w : W) :
  let '(w1, lr) := sb_listProcesses sb w in
  match match lr with Ok ps => findLoop ps | Throw _ => None end with
  | None =>
      PublicRoutes.apiStatus sb w =
        (w1, [EvList (isOk lr)],
         Ok {| PublicRoutes.ok := false; PublicRoutes.status := lit "not_running";
               PublicRoutes.processId := None; PublicRoutes.error := None |})
  | Some p =>
      let '(w2, wr) := sb_waitForPort sb p 18789 5000 w1 in
      PublicRoutes.apiStatus sb w =
        (w2, [EvList true; EvWaitForPort p 18789 5000 (isOk wr)],
         Ok {| PublicRoutes.ok := isOk wr;
               PublicRoutes.status := if isOk wr then lit "running" else lit "not_responding";
               PublicRoutes.processId := Some (id p); PublicRoutes.error := None |})
  end.
Proof.
  unfold PublicRoutes.apiStatus, findExistingMoltbotProcess. run_monad.
  destruct (sb_listProcesses sb w) as [w1 [ps|e]]; msimpl; [|reflexivity].
  destruct (findLoop ps) as [p|]; msimpl; [|reflexivity].
  destruct (sb_waitForPort sb p 18789 5000 w1) as [w2 [[]|e]]; reflexivity.
Qed.

(** X14. [GET /api/status] never throws and never answers with status
    [error]: its outer [catch] is unreachable, a failed listing is reported
    as [not_running]. [ok] is true exactly for [running], the process id is
    absent exactly for [not_running], and the only sandbox calls are the
    listing and the wait. *)
Theorem apiStatus_error_unreachable {W : Type} (sb : Sandbox W) (w : W) :
  exists w' t b,
    PublicRoutes.apiStatus sb w = (w', t, Ok b) /\
    PublicRoutes.status b <> lit "error" /\ PublicRoutes.error b = None /\
    (PublicRoutes.ok b = true <-> PublicRoutes.status b = lit "running") /\
    (PublicRoutes.processId b = None <-> PublicRoutes.status b = lit "not_running") /\
    forallb (fun e => is_list e || is_wait e) t = true /\
    (isOk (snd (sb_listProcesses sb w)) = false -> PublicRoutes.status b = lit "not_running").
Proof.
  unfold PublicRoutes.apiStatus, findExistingMoltbotProcess. run_monad.
  all_calls; do 3 eexists; (split; [reflexivity|]); cbn [PublicRoutes.ok PublicRoutes.status PublicRoutes.error PublicRoutes.processId];
    repeat split; intros; try reflexivity; try discriminate; try congruence.
Qed.

(* ------------------------------------------------------------------ *)
(** ** The debug route and the asset path *)

Lemma slice_last (s : jsstring) (n : Z) :
  0 < n ->
  (List.length (PublicRoutes.slice s (- n)) <= Z.to_nat n)%nat /\
  (exists dropped, s = dropped ++ PublicRoutes.slice s (- n)) /\
  (Z.of_nat (List.length s) <= n -> PublicRoutes.slice s (- n) = s).
Proof.
  intros Hn. unfold PublicRoutes.slice.
  replace (- n <? 0) with true by (symmetry; apply Z.ltb_lt; lia).
  split; [|split].
  - rewrite length_skipn. lia.
  - exists (firstn (Z.to_nat (Z.max (Z.of_nat (List.length s) + - n) 0)) s).
    symmetry. apply firstn_skipn.
  - intros Hl. replace (Z.max (Z.of_nat (List.length s) + - n) 0) with 0 by lia.
    reflexivity.
Qed.

Lemma sliceOrEmpty_last (x : option jsstring) (n : Z) :
  0 < n ->
  (List.length (PublicRoutes.sliceOrEmpty x (- n)) <= Z.to_nat n)%nat /\
  exists dropped, orEmpty x = dropped ++ PublicRoutes.sliceOrEmpty x (- n).
Proof.
  intros Hn. destruct x as [s|]; simpl.
  - destruct (slice_last s n Hn) as (H1 & H2 & _). auto.
  - split; [lia | exists []; reflexivity].
Qed.

(** X15. [GET /debug-public] never throws: it answers with the error alone
    when a sandbox call failed and with the results otherwise, whether or not
    the configuration parses. It kills nothing, mounts nothing and waits for
    no port; the only process it starts is the read of the configuration
    file, at most once. *)
Theorem debugPublic_never_throws {W J : Type} (sb : Sandbox W)
    (JSON_parse : jsstring -> result J) (w : W) :
  exists w' t b,
    PublicRoutes.debugPublic sb JSON_parse w = (w', t, Ok b) /\
    existsb is_kill t = false /\ existsb is_mount t = false /\
    existsb is_wait t = false /\
    forallb (fun e => implb (is_start e) (is_config_read e)) t = true /\
    (countEvents is_start t <= 1)%nat /\
    match b with
    | PublicRoutes.DebugError _ => existsb ev_failed t = true
    | PublicRoutes.DebugResults ps _ _ =>
        existsb ev_failed t = false /\ snd (sb_listProcesses sb w) = Ok ps
    end.
Proof.
  unfold PublicRoutes.debugPublic. run_monad.
  destruct (sb_listProcesses sb w) as [w1 [ps|e]]; msimpl.
  2: { do 3 eexists. split; [reflexivity|].
       repeat split; try reflexivity. vm_compute. lia. }
  destruct (find PublicRoutes.debugMatch ps) as [gp|]; msimpl;
    all_calls; do 3 eexists; (split; [reflexivity|]);
      repeat split; try reflexivity; vm_compute; lia.
Qed.

(** X16. The gateway logs in the answer of [GET /debug-public] are the logs
    of the first process matching its test, cut to their end: at most the
    last 3000 code units of the output and the last 1000 of the error
    stream. *)
Theorem debugPublic_logs_truncated {W J : Type} (sb : Sandbox W)
    (JSON_parse : jsstring -> result J) (w w' : W) (t : list Event)
    (ps : list Process) (out err : jsstring) (c : J + option jsstring) :
  PublicRoutes.debugPublic sb JSON_parse w = (w', t, Ok (PublicRoutes.DebugResults ps (Some (out, err)) c)) ->
  (List.length out <= 3000)%nat /\ (List.length err <= 1000)%nat /\
  exists gp logs,
    find PublicRoutes.debugMatch ps = Some gp /\
    snd (sb_getLogs sb gp (fst (sb_listProcesses sb w))) = Ok logs /\
    (exists dropped, orEmpty (stdout logs) = dropped ++ out) /\
    (exists dropped, orEmpty (stderr logs) = dropped ++ err).
Proof.
  unfold PublicRoutes.debugPublic. run_monad.
  destruct (sb_listProcesses sb w) as [w1 [ps'|e]]; msimpl; [|discriminate].
  destruct (find PublicRoutes.debugMatch ps') as [gp|] eqn:Ef; msimpl.
  - destruct (sb_getLogs sb gp w1) as [w2 [logs|e]] eqn:Eg; msimpl; [|discriminate].
    all_calls; intros H; try discriminate H;
      injection H as _ _ <- <- <- _;
      destruct (sliceOrEmpty_last (stdout logs) 3000 ltac:(lia)) as [Ho1 Ho2];
      destruct (sliceOrEmpty_last (stderr logs) 1000 ltac:(lia)) as [He1 He2];
      (split; [exact Ho1|]); (split; [exact He1|]);
      exists gp, logs;
      (split; [exact Ef|]); (split; [rewrite Eg; reflexivity|]);
      split; assumption.
  - all_calls; intros H; discriminate H.
Qed.

Lemma includes_prefix_of_pattern (s a b : jsstring) :
  includes s (a ++ b) = true -> includes s a = true.
Proof.
  intros H. apply includes_iff in H. destruct H as (x & y & ->).
  apply includes_iff. exists x, (b ++ y). rewrite <- app_assoc. reflexivity.
Qed.

Lemma debugMatch_of_gateway (p : Process) :
  isGatewayProcess p = true -> PublicRoutes.debugMatch p = true.
Proof.
  unfold isGatewayProcess, PublicRoutes.debugMatch. intros H.
  apply orb_true_iff in H. apply orb_true_iff. destruct H as [H|H].
  - right. apply (includes_prefix_of_pattern _ (lit "start-moltbot") (lit ".sh")).
    exact H.
  - left. exact H.
Qed.

(** X17. The test of [GET /debug-public] is wider than the locator's:
    whenever the locator finds a process in a listing, the debug route finds
    one too, the same or one listed earlier; and the debug route also picks a
    gateway process that has exited, which the locator ignores. *)
Theorem debugMatch_wider_than_locator :
  (forall ps p,
     findLoop ps = Some p ->
     exists q before after,
       find PublicRoutes.debugMatch ps = Some q /\ ps = before ++ q :: after /\
       (q = p \/ In p after)) /\
  findLoop [exitedGateway] = None /\
  find PublicRoutes.debugMatch [exitedGateway] = Some exitedGateway.
Proof.
  split; [|split; vm_compute; reflexivity].
  induction ps as [|x ps IH]; intros p H; [discriminate|].
  cbn [find]. destruct (PublicRoutes.debugMatch x) eqn:Ed.
  - exists x, [], ps. split; [reflexivity|]. split; [reflexivity|].
    apply findLoop_Some in H. destruct H as ([<-|Hin] & _); auto.
  - cbn [findLoop] in H.
    destruct (isGatewayProcess x) eqn:Eg.
    + apply debugMatch_of_gateway in Eg. congruence.
    + cbn [andb] in H. destruct (IH p H) as (q & b & a & Hq & -> & Hp).
      exists q, (x :: b), a. auto.
Qed.

(** X18. The path rewrite of [GET /_admin/assets/*]: a pathname under
    [/_admin/assets/] becomes the rest under [/assets/], the rest verbatim
    even where it contains the prefix again; a pathname without the prefix is
    unchanged. *)
Theorem assetPath_rewrites_prefix (rest pathname : jsstring) :
  PublicRoutes.assetPath (lit "/_admin/assets/" ++ rest) = lit "/assets/" ++ rest /\
  (includes pathname (lit "/_admin/assets/") = false -> PublicRoutes.assetPath pathname = pathname).
Proof.
  split.
  - unfold PublicRoutes.assetPath.
    destruct (lit "/_admin/assets/" ++ rest) eqn:E; [discriminate E|].
    rewrite <- E. clear E.
    assert (H : forall s pat rep, startsWith s pat = true ->
                PublicRoutes.replaceFirst s pat rep = rep ++ skipn (List.length pat) s).
    { intros s pat rep Hs. destruct s; cbn [PublicRoutes.replaceFirst]; rewrite Hs; reflexivity. }
    rewrite H by apply startsWith_app.
    rewrite skipn_app, skipn_all, Nat.sub_diag. reflexivity.
  - unfold PublicRoutes.assetPath. generalize (lit "/_admin/assets/") as pat.
    intros pat. induction pathname as [|c s IH]; cbn [PublicRoutes.replaceFirst includes]; intros H.
    + apply orb_false_iff in H. destruct H as [H _]. rewrite H. reflexivity.
    + apply orb_false_iff in H. destruct H as [H1 H2]. rewrite H1, IH by exact H2.
      reflexivity.
Qed.

(* ------------------------------------------------------------------ *)
(** ** More runs on the simulated sandbox *)

(** Two environments of code units, one with a token. *)
Lemma configString_injective_witness :
  wellFormedEnv envNone = true /\
  wellFormedEnv envToken = true /\
  (JSON_stringify (relevantConfig envNone) = JSON_stringify (relevantConfig envToken) <->
   relevantConfig envNone = relevantConfig envToken).
Proof.
  split; [reflexivity|]. split; [reflexivity|].
  apply (configString_injective envNone envToken); reflexivity.
Defined.

(** A running gateway with the fingerprint of [envNone], asked for with
    [envToken]. *)
Lemma ensure_stale_path_witness :
  sb_mountR2Storage (simSandbox healthy) envToken runningWorld = (runningWorld, Ok tt) /\
  findExistingMoltbotProcess (simSandbox healthy) runningWorld =
    (runningWorld, [EvList true], Ok (Some gw0)) /\
  isGatewayCurrentVersion (simSandbox healthy) envToken runningWorld =
    (reusedWorld, hashReadTrace, Ok staleResult) /\
  current staleResult = false /\
  ensureMoltbotGateway (simSandbox healthy) simCfg envToken runningWorld =
    let '(wk, kr) := sb_kill (simSandbox healthy) gw0 reusedWorld in
    let settled := if isOk kr then sb_sleep (simSandbox healthy) 2000 wk else wk in
    let '(w', t', r) := startNewGateway (simSandbox healthy) simCfg envToken settled in
    (w',
     EvMount envToken true :: EvList true :: hashReadTrace ++
     EvKill gw0 (isOk kr) :: (if isOk kr then [EvSleep 2000] else []) ++ t',
     r).
Proof.
  assert (Hm : sb_mountR2Storage (simSandbox healthy) envToken runningWorld =
               (runningWorld, Ok tt)) by reflexivity.
  assert (Hf : findExistingMoltbotProcess (simSandbox healthy) runningWorld =
               (runningWorld, [EvList true], Ok (Some gw0)))
    by (vm_compute; reflexivity).
  assert (Hv : isGatewayCurrentVersion (simSandbox healthy) envToken runningWorld =
               (reusedWorld, hashReadTrace, Ok staleResult))
    by (vm_compute; reflexivity).
  repeat (split; [assumption || reflexivity|]).
  exact (ensure_stale_path (simSandbox healthy) simCfg envToken
           runningWorld runningWorld runningWorld reusedWorld
           [EvList true] hashReadTrace gw0 staleResult Hm Hf Hv eq_refl).
Defined.

(** A located, current gateway whose port never opens. *)
Lemma ensure_unreachable_path_witness :
  sb_mountR2Storage (simSandbox stuck) envNone runningWorld = (runningWorld, Ok tt) /\
  findExistingMoltbotProcess (simSandbox stuck) runningWorld =
    (runningWorld, [EvList true], Ok (Some gw0)) /\
  isGatewayCurrentVersion (simSandbox stuck) envNone runningWorld =
    (reusedWorld, hashReadTrace, Ok currentResult) /\
  current currentResult = true /\
  sb_waitForPort (simSandbox stuck) gw0 (MOLTBOT_PORT simCfg)
    (STARTUP_TIMEOUT_MS simCfg) reusedWorld =
    (reusedWorld, Throw (ErrorObj (lit "timed out waiting for port"))) /\
  ensureMoltbotGateway (simSandbox stuck) simCfg envNone runningWorld =
    let '(wk, kr) := sb_kill (simSandbox stuck) gw0 reusedWorld in
    let '(w', t', r) := startNewGateway (simSandbox stuck) simCfg envNone wk in
    (w',
     EvMount envNone true :: EvList true :: hashReadTrace ++
     EvWaitForPort gw0 (MOLTBOT_PORT simCfg) (STARTUP_TIMEOUT_MS simCfg) false ::
     EvKill gw0 (isOk kr) :: t',
     r).
Proof.
  assert (Hm : sb_mountR2Storage (simSandbox stuck) envNone runningWorld =
               (runningWorld, Ok tt)) by reflexivity.
  assert (Hf : findExistingMoltbotProcess (simSandbox stuck) runningWorld =
               (runningWorld, [EvList true], Ok (Some gw0)))
    by (vm_compute; reflexivity).
  assert (Hv : isGatewayCurrentVersion (simSandbox stuck) envNone runningWorld =
               (reusedWorld, hashReadTrace, Ok currentResult))
    by (vm_compute; reflexivity).
  assert (Hw : sb_waitForPort (simSandbox stuck) gw0 (MOLTBOT_PORT simCfg)
                 (STARTUP_TIMEOUT_MS simCfg) reusedWorld =
               (reusedWorld, Throw (ErrorObj (lit "timed out waiting for port"))))
    by reflexivity.
  repeat (split; [assumption || reflexivity|]).
  exact (ensure_unreachable_path (simSandbox stuck) simCfg envNone
           runningWorld runningWorld runningWorld reusedWorld reusedWorld
           [EvList true] hashReadTrace gw0 currentResult
           (ErrorObj (lit "timed out waiting for port")) Hm Hf Hv eq_refl Hw).
Defined.

(** An empty container. *)
Lemma ensure_absent_path_witness :
  sb_mountR2Storage (simSandbox healthy) envNone emptyWorld = (emptyWorld, Ok tt) /\
  match snd (sb_listProcesses (simSandbox healthy) emptyWorld) with
  | Ok ps => forall q, In q ps -> liveMatch q = false
  | Throw _ => True
  end /\
  ensureMoltbotGateway (simSandbox healthy) simCfg envNone emptyWorld =
    let '(w', t', r) :=
      startNewGateway (simSandbox healthy) simCfg envNone
        (fst (sb_listProcesses (simSandbox healthy) emptyWorld)) in
    (w',
     EvMount envNone true ::
     EvList (isOk (snd (sb_listProcesses (simSandbox healthy) emptyWorld))) :: t',
     r).
Proof.
  assert (Hm : sb_mountR2Storage (simSandbox healthy) envNone emptyWorld =
               (emptyWorld, Ok tt)) by reflexivity.
  assert (Hl : match snd (sb_listProcesses (simSandbox healthy) emptyWorld) with
               | Ok ps => forall q, In q ps -> liveMatch q = false
               | Throw _ => True
               end) by (simpl; intros q []).
  split; [exact Hm|]. split; [exact Hl|].
  exact (ensure_absent_path (simSandbox healthy) simCfg envNone
           emptyWorld emptyWorld Hm Hl).
Defined.

(** The debug route on a running gateway, with a configuration that does not
    parse. *)
Lemma debugPublic_logs_truncated_witness :
  PublicRoutes.debugPublic (simSandbox healthy) rejectingParse runningWorld =
    (debuggedWorld, debugTrace,
     Ok (PublicRoutes.DebugResults [gw0]
           (Some (lit "gateway booting", []))
           (inr (Some (lit "gateway booting"))))) /\
  ((List.length (lit "gateway booting") <= 3000)%nat /\
   (List.length (@nil Z) <= 1000)%nat /\
   exists gp logs,
     find PublicRoutes.debugMatch [gw0] = Some gp /\
     snd (sb_getLogs (simSandbox healthy) gp
            (fst (sb_listProcesses (simSandbox healthy) runningWorld))) = Ok logs /\
     (exists dropped, orEmpty (stdout logs) = dropped ++ lit "gateway booting") /\
     (exists dropped, orEmpty (stderr logs) = dropped ++ [])).
Proof.
  assert (H : PublicRoutes.debugPublic (simSandbox healthy) rejectingParse runningWorld =
              (debuggedWorld, debugTrace,
               Ok (PublicRoutes.DebugResults [gw0]
                     (Some (lit "gateway booting", []))
                     (inr (Some (lit "gateway booting"))))))
    by (vm_compute; reflexivity).
  split; [exact H|].
  exact (debugPublic_logs_truncated (simSandbox healthy) rejectingParse
           runningWorld debuggedWorld debugTrace [gw0]
           (lit "gateway booting") [] (inr (Some (lit "gateway booting"))) H).
Defined.
